(** * Resume-analysis service ([main.py]): a shallow embedding

    The service receives an uploaded PDF and an optional job description,
    normalises the PDF text, looks the pair up in a Redis cache under an MD5
    key, and on a miss asks a hosted language model for the candidate's
    fields and for a fit score, parses the two answers defensively, caches
    the combined response for one hour and returns it.

    Python values are modelled as they are at run time: a [str] is the list
    of its Unicode code points, bytes and machine words are [Z], a [dict] is
    an association list in insertion order, an exception is a value of
    [exn] carried by the result type [res].  The Redis store is a [gmap]
    from keys to a value and its expiry instant. *)

From Stdlib Require Import ZArith Lia Bool.
From stdpp Require Import gmap strings list.

Local Open Scope Z_scope.
Local Set Warnings "-register-all".


(** ** Python strings *)

Module PyStr.

(** A [str] is a sequence of code points, [0 .. 0x10FFFF]. *)
Abbreviation pystr := (list Z).

(** Code points of text written in this file: the literal is a byte string
    in UTF-8, as the Python source file is. *)
Fixpoint utf8_decode (bs : list Z) : pystr :=
  match bs with
  | [] => []
  | b0 :: r0 =>
    if b0 <? 0x80 then b0 :: utf8_decode r0
    else if b0 <? 0xE0 then
      match r0 with
      | b1 :: r1 =>
        Z.lor (Z.shiftl (Z.land b0 0x1F) 6) (Z.land b1 0x3F) :: utf8_decode r1
      | _ => []
      end
    else if b0 <? 0xF0 then
      match r0 with
      | b1 :: b2 :: r2 =>
        Z.lor (Z.shiftl (Z.land b0 0x0F) 12)
          (Z.lor (Z.shiftl (Z.land b1 0x3F) 6) (Z.land b2 0x3F))
        :: utf8_decode r2
      | _ => []
      end
    else
      match r0 with
      | b1 :: b2 :: b3 :: r3 =>
        Z.lor (Z.shiftl (Z.land b0 0x07) 18)
          (Z.lor (Z.shiftl (Z.land b1 0x3F) 12)
             (Z.lor (Z.shiftl (Z.land b2 0x3F) 6) (Z.land b3 0x3F)))
        :: utf8_decode r3
      | _ => []
      end
  end.

Fixpoint bytes_of_string (s : string) : list Z :=
  match s with
  | EmptyString => []
  | String a s' => Z.of_N (Ascii.N_of_ascii a) :: bytes_of_string s'
  end.

Definition py (s : string) : pystr := utf8_decode (bytes_of_string s).
Arguments py s%_string.

(** The same, with every apostrophe read as a double quote, for JSON texts. *)
Definition pyq (s : string) : pystr :=
  (fun c => if c =? 39 then 34 else c) <$> py s.
Arguments pyq s%_string.

(** [bool(s)] for a string: non-empty. *)
Definition truthy (s : pystr) : bool :=
  match s with [] => false | _ => true end.

(** [s[:n]] for [n >= 0]. *)
Definition slice_to (n : nat) (s : pystr) : pystr := take n s.

Fixpoint startswith (p s : pystr) : bool :=
  match p, s with
  | [], _ => true
  | a :: p', b :: s' => (a =? b) && startswith p' s'
  | _ :: _, [] => false
  end.

(** [s.replace(old, new)] for a non-empty [old]: the occurrences of [old]
    are found from the left and do not overlap.  [skip] counts the
    characters of an occurrence that are still to be passed over. *)
Fixpoint replace_from (old new : pystr) (skip : nat) (s : pystr) : pystr :=
  match s with
  | [] => []
  | c :: s' =>
    match skip with
    | S k => replace_from old new k s'
    | O =>
      if startswith old s
      then new ++ replace_from old new (length old - 1) s'
      else c :: replace_from old new 0 s'
    end
  end.

Definition replace (old new s : pystr) : pystr := replace_from old new 0 s.

(** [c.isspace()], which is also the class [\s] of [re] on a [str] pattern
    and the class [str.strip()] removes. *)
Definition isspace (c : Z) : bool :=
  ((0x09 <=? c) && (c <=? 0x0D)) || ((0x1C <=? c) && (c <=? 0x20))
  || (c =? 0x85) || (c =? 0xA0) || (c =? 0x1680)
  || ((0x2000 <=? c) && (c <=? 0x200A))
  || (c =? 0x2028) || (c =? 0x2029) || (c =? 0x202F) || (c =? 0x205F)
  || (c =? 0x3000).

Definition SPACE : Z := 32.

(** [re.sub(r'\s+', ' ', s)]: every maximal run of whitespace is replaced
    by one space.  [in_run] says that the previous character was whitespace,
    so that the run's space is already written. *)
Fixpoint sub_ws (in_run : bool) (s : pystr) : pystr :=
  match s with
  | [] => []
  | c :: s' =>
    if isspace c
    then (if in_run then sub_ws true s' else SPACE :: sub_ws true s')
    else c :: sub_ws false s'
  end.

Definition re_sub_ws (s : pystr) : pystr := sub_ws false s.

Fixpoint lstrip (s : pystr) : pystr :=
  match s with
  | [] => []
  | c :: s' => if isspace c then lstrip s' else s
  end.

(** [s.rstrip()]: [c] goes when it is whitespace and nothing but
    whitespace follows it. *)
Fixpoint rstrip (s : pystr) : pystr :=
  match s with
  | [] => []
  | c :: s' =>
    match rstrip s' with
    | [] => if isspace c then [] else [c]
    | r => c :: r
    end
  end.

Definition strip (s : pystr) : pystr := rstrip (lstrip s).

End PyStr.
Import PyStr.

(** ** Exceptions and results *)

(** The exception classes this program can meet.  [PDFError] stands for
    whatever [pdfplumber] raises on a document it cannot read; it carries
    [str(e)]. *)
Inductive exn : Type :=
| PDFError (msg : pystr)
| UnicodeEncodeError
| AttributeError
| JSONDecodeError
| ConnectionError.

(** The outcome of a Python expression: a value, or a raised exception. *)
Inductive res (A : Type) : Type :=
| Ret (a : A)
| Raise (e : exn).
Arguments Ret {A} a.
Arguments Raise {A} e.

Definition res_bind {A B} (m : res A) (k : A -> res B) : res B :=
  match m with
  | Ret a => k a
  | Raise e => Raise e
  end.

(** [try: m  except: h] with a bare [except]. *)
Definition try_except {A} (m : res A) (h : A) : A :=
  match m with
  | Ret a => a
  | Raise _ => h
  end.

(** ** [hashlib.md5] and [str.encode('utf-8')] *)

Module Hashlib.

Definition mask32 : Z := 0xFFFFFFFF.
Definition add32 (a b : Z) : Z := Z.land (a + b) mask32.
Definition not32 (a : Z) : Z := Z.lxor a mask32.
Definition rotl32 (x : Z) (c : Z) : Z :=
  Z.land (Z.lor (Z.shiftl x c) (Z.shiftr x (32 - c))) mask32.

Definition K : list Z :=
  [ 0xd76aa478; 0xe8c7b756; 0x242070db; 0xc1bdceee;
    0xf57c0faf; 0x4787c62a; 0xa8304613; 0xfd469501;
    0x698098d8; 0x8b44f7af; 0xffff5bb1; 0x895cd7be;
    0x6b901122; 0xfd987193; 0xa679438e; 0x49b40821;
    0xf61e2562; 0xc040b340; 0x265e5a51; 0xe9b6c7aa;
    0xd62f105d; 0x02441453; 0xd8a1e681; 0xe7d3fbc8;
    0x21e1cde6; 0xc33707d6; 0xf4d50d87; 0x455a14ed;
    0xa9e3e905; 0xfcefa3f8; 0x676f02d9; 0x8d2a4c8a;
    0xfffa3942; 0x8771f681; 0x6d9d6122; 0xfde5380c;
    0xa4beea44; 0x4bdecfa9; 0xf6bb4b60; 0xbebfbc70;
    0x289b7ec6; 0xeaa127fa; 0xd4ef3085; 0x04881d05;
    0xd9d4d039; 0xe6db99e5; 0x1fa27cf8; 0xc4ac5665;
    0xf4292244; 0x432aff97; 0xab9423a7; 0xfc93a039;
    0x655b59c3; 0x8f0ccc92; 0xffeff47d; 0x85845dd1;
    0x6fa87e4f; 0xfe2ce6e0; 0xa3014314; 0x4e0811a1;
    0xf7537e82; 0xbd3af235; 0x2ad7d2bb; 0xeb86d391 ].

Definition shifts : list Z :=
  [ 7; 12; 17; 22; 7; 12; 17; 22; 7; 12; 17; 22; 7; 12; 17; 22;
    5; 9; 14; 20; 5; 9; 14; 20; 5; 9; 14; 20; 5; 9; 14; 20;
    4; 11; 16; 23; 4; 11; 16; 23; 4; 11; 16; 23; 4; 11; 16; 23;
    6; 10; 15; 21; 6; 10; 15; 21; 6; 10; 15; 21; 6; 10; 15; 21 ].

(** The four chaining words A, B, C, D. *)
Definition md5_state : Type := (Z * Z * Z * Z)%type.

Definition md5_init : md5_state :=
  (0x67452301, 0xefcdab89, 0x98badcfe, 0x10325476).

(** Little-endian 32-bit words of a byte block. *)
Fixpoint words_le (bs : list Z) : list Z :=
  match bs with
  | b0 :: b1 :: b2 :: b3 :: r =>
    Z.lor b0 (Z.lor (Z.shiftl b1 8) (Z.lor (Z.shiftl b2 16) (Z.shiftl b3 24)))
    :: words_le r
  | _ => []
  end.

(** Operation [i] of the 64 of one block. *)
Definition md5_step (M : list Z) (st : md5_state) (i : nat) : md5_state :=
  let '(a, b, c, d) := st in
  let iz := Z.of_nat i in
  let '(f, g) :=
    if iz <? 16 then (Z.lor (Z.land b c) (Z.land (not32 b) d), iz)
    else if iz <? 32 then
      (Z.lor (Z.land d b) (Z.land (not32 d) c), (5 * iz + 1) mod 16)
    else if iz <? 48 then (Z.lxor b (Z.lxor c d), (3 * iz + 5) mod 16)
    else (Z.lxor c (Z.lor b (not32 d)), (7 * iz) mod 16) in
  let f' := add32 (add32 (add32 f a) (K !!! i)) (M !!! Z.to_nat g) in
  (d, add32 b (rotl32 f' (shifts !!! i)), b, c).

Definition md5_block (st : md5_state) (block : list Z) : md5_state :=
  let '(a0, b0, c0, d0) := st in
  let '(a, b, c, d) := foldl (md5_step (words_le block)) st (seq 0 64) in
  (add32 a0 a, add32 b0 b, add32 c0 c, add32 d0 d).

Fixpoint md5_blocks (n : nat) (st : md5_state) (bs : list Z) : md5_state :=
  match n with
  | O => st
  | S n' => md5_blocks n' (md5_block st (take 64 bs)) (drop 64 bs)
  end.

Definition bytes_le (n : nat) (x : Z) : list Z :=
  (fun i => Z.land (Z.shiftr x (8 * Z.of_nat i)) 0xFF) <$> seq 0 n.

(** Padding: a 1 bit, zeros up to 56 modulo 64, the bit length on 8 bytes. *)
Definition md5_pad (msg : list Z) : list Z :=
  let len := Z.of_nat (length msg) in
  let zeros := Z.to_nat ((55 - len) mod 64) in
  msg ++ [0x80] ++ replicate zeros 0 ++ bytes_le 8 (Z.land (8 * len) 0xFFFFFFFFFFFFFFFF).

(** [hashlib.md5(msg).digest()]: 16 bytes. *)
Definition md5 (msg : list Z) : list Z :=
  let padded := md5_pad msg in
  let '(a, b, c, d) := md5_blocks (length padded / 64) md5_init padded in
  bytes_le 4 a ++ bytes_le 4 b ++ bytes_le 4 c ++ bytes_le 4 d.

Definition hex_digit (d : Z) : Z := if d <? 10 then 48 + d else 87 + d.

(** [.hexdigest()]: two lower-case hexadecimal digits per byte. *)
Definition hexlify (bs : list Z) : pystr :=
  bs ≫= (fun b => [hex_digit (Z.shiftr b 4); hex_digit (Z.land b 0xF)]).

(** UTF-8 of one code point; a surrogate has none ([None]). *)
Definition encode_char (c : Z) : option (list Z) :=
  if c <? 0 then None
  else if c <? 0x80 then Some [c]
  else if c <? 0x800 then
    Some [Z.lor 0xC0 (Z.shiftr c 6); Z.lor 0x80 (Z.land c 0x3F)]
  else if c <? 0x10000 then
    if (0xD800 <=? c) && (c <=? 0xDFFF) then None
    else Some [Z.lor 0xE0 (Z.shiftr c 12);
               Z.lor 0x80 (Z.land (Z.shiftr c 6) 0x3F);
               Z.lor 0x80 (Z.land c 0x3F)]
  else if c <? 0x110000 then
    Some [Z.lor 0xF0 (Z.shiftr c 18);
          Z.lor 0x80 (Z.land (Z.shiftr c 12) 0x3F);
          Z.lor 0x80 (Z.land (Z.shiftr c 6) 0x3F);
          Z.lor 0x80 (Z.land c 0x3F)]
  else None.

(** [s.encode('utf-8')]: raises [UnicodeEncodeError] on a surrogate. *)
Definition encode_utf8 (s : pystr) : res (list Z) :=
  match mapM encode_char s with
  | Some bss => Ret (concat bss)
  | None => Raise UnicodeEncodeError
  end.

End Hashlib.

(** ** Python objects *)

(** The values [json.loads] returns and [json.dumps] accepts.  A [dict]
    keeps its items in insertion order; a [float] is kept as its text, the
    arithmetic of floats being outside this development. *)
Inductive pyobj : Type :=
| PyNone
| PyBool (b : bool)
| PyInt (n : Z)
| PyFloat (repr : pystr)
| PyStr (s : pystr)
| PyList (items : list pyobj)
| PyDict (items : list (pystr * pyobj)).

(** A value that is a [str] or [None]. *)
Definition py_of_optstr (o : option pystr) : pyobj :=
  match o with
  | Some s => PyStr s
  | None => PyNone
  end.

(** The [json] module, as the program uses it: [loads] raises on a text
    that is not JSON, [dumps] is total on the values built here. *)
Class JsonModule : Type := {
  json_loads : pystr -> res pyobj;
  json_dumps : pyobj -> pystr
}.

(** ** [pdfplumber] *)

(** What [page.extract_text()] does on one page: a text, [None], or an
    exception. *)
Definition pdf_page : Type := res (option pystr).

(** What [pdfplumber.open(file_stream)] does on an upload: it raises, or
    opens a document with its pages. *)
Definition pdf_upload : Type := res (list pdf_page).

(** The loop over [pdf.pages], with the accumulator [text]. *)
Fixpoint read_pages (text : pystr) (pages : list pdf_page) : res pystr :=
  match pages with
  | [] => Ret text
  | page :: pages' =>
    match page with
    | Raise e => Raise e
    | Ret page_text =>
      match page_text with
      | Some t => if truthy t then read_pages (text ++ t ++ py "
") pages'
                  else read_pages text pages'
      | None => read_pages text pages'
      end
    end
  end.

(** The cleaning step of [extract_text_from_pdf] (its last two lines). *)
Definition normalize (text : pystr) : pystr := strip (re_sub_ws text).

Definition extract_text_from_pdf (file_stream : pdf_upload) : res pystr :=
  res_bind file_stream (fun pages =>
  res_bind (read_pages [] pages) (fun text =>
  Ret (normalize text))).

(** ** The cache key *)

Definition get_cache_key (text jd_text : pystr) : res pystr :=
  let raw := text ++ jd_text in
  res_bind (Hashlib.encode_utf8 raw) (fun bytes =>
  Ret (Hashlib.hexlify (Hashlib.md5 bytes))).

(** ** Redis *)

(** The server's data: under a key, a value and the instant it expires. *)
Abbreviation redis_db := (gmap pystr (pystr * Z)).

(** [GET key] at the instant [now]. *)
Definition redis_GET (db : redis_db) (now : Z) (key : pystr) : option pystr :=
  match db !! key with
  | Some (value, expires) => if now <? expires then Some value else None
  | None => None
  end.

(** [SETEX key ttl value] at the instant [now]. *)
Definition redis_SETEX (db : redis_db) (now : Z) (key : pystr) (ttl : Z)
    (value : pystr) : redis_db :=
  <[key := (value, now + ttl)]> db.

(** A client object, [redis.Redis(host=..., port=6379, password=...)]. *)
Record redis_client : Type := Redis { host : pystr; port : Z; password : pystr }.

(** The module-level initialisation of [r_client].  [environ] is the
    value of the environment variable [REDIS_HOST] if it is set, [ctor]
    what the constructor call does. *)
Definition REDIS_HOST (environ : option pystr) : pystr :=
  default (py "None") environ.

Definition init_r_client (environ : option pystr)
    (ctor : pystr -> res redis_client) : option redis_client :=
  let h := REDIS_HOST environ in
  if truthy h && negb (bool_decide (h = py "None")) then
    match ctor h with
    | Ret c => Some c
    | Raise _ => None
    end
  else None.

(** ** The completion service *)

(** What [dashscope.Generation.call] does on a prompt: it raises, or it
    returns a response with a status code; [content] is
    [response.output.choices[0].message.content], [None] when reading it
    raises. *)
Inductive generation : Type :=
| CallRaises
| Response (status_code : Z) (content : option pystr).

Definition HTTPStatus_OK : Z := 200.

(** ** The world of one request *)

(** What persists between requests and what is observed of them: the
    Redis data and the prompts sent to the model so far, oldest first. *)
Record world : Type := World {
  db : redis_db;
  prompts : list pystr
}.

(** What the collaborators do during one request: whether the Redis
    server answers the [GET] and the [SETEX] and its clock at each, and
    the model's answer to each prompt. *)
Record outside : Type := Outside {
  get_up : bool;
  get_now : Z;
  setex_up : bool;
  setex_now : Z;
  model : pystr -> generation
}.

(** The handler's monad: state [world], exceptions [exn]. *)
Definition M (A : Type) : Type := world -> res A * world.

Definition ret {A} (a : A) : M A := fun w => (Ret a, w).

Definition bind {A B} (m : M A) (k : A -> M B) : M B :=
  fun w =>
    match m w with
    | (Ret a, w') => k a w'
    | (Raise e, w') => (Raise e, w')
    end.

Definition lift {A} (r : res A) : M A := fun w => (r, w).

Notation "'let*' x ':=' m 'in' k" := (bind m (fun x => k))
  (at level 10, x name, m at level 100, k at level 200).

(** [r_client.get(key)] and [r_client.setex(key, ttl, value)]: the client
    raises [ConnectionError] when the server does not answer. *)
Definition client_get (o : outside) (key : pystr) : M (option pystr) :=
  fun w =>
    if get_up o then (Ret (redis_GET (db w) (get_now o) key), w)
    else (Raise ConnectionError, w).

Definition client_setex (o : outside) (key : pystr) (ttl : Z) (value : pystr)
    : M unit :=
  fun w =>
    if setex_up o
    then (Ret tt, World (redis_SETEX (db w) (setex_now o) key ttl value) (prompts w))
    else (Raise ConnectionError, w).

(** [call_ai_service(prompt)]: one call of the model, every failure
    turned into [None]. *)
Definition call_ai_service (o : outside) (prompt : pystr) : M (option pystr) :=
  fun w =>
    let w' := World (db w) (prompts w ++ [prompt]) in
    match model o prompt with
    | Response status_code content =>
      if status_code =? HTTPStatus_OK then (Ret content, w')
      else (Ret None, w')
    | CallRaises => (Ret None, w')
    end.

(** ** The handler *)

(** The HTTP answer of a view: [jsonify(body), status]. *)
Record http : Type := Respond { status : Z; body : pyobj }.

Definition jsonify (body : pyobj) : http := Respond 200 body.

(** The multipart form: the file field [resume] and the text field
    [jd_text], each possibly absent. *)
Record request : Type := Request {
  files_resume : option pdf_upload;
  form_jd_text : option pystr
}.

Definition exn_str (e : exn) : pystr :=
  match e with
  | PDFError msg => msg
  | UnicodeEncodeError => py "surrogates not allowed"
  | AttributeError => py "'NoneType' object has no attribute 'replace'"
  | JSONDecodeError => py "Expecting value"
  | ConnectionError => py "Error connecting to the server"
  end.

Definition FENCE_JSON : pystr := py "```json".
Definition FENCE : pystr := py "```".

(** [s.replace(FENCE_JSON, empty).replace(FENCE, empty)] on a value that may be [None]. *)
Definition strip_fences (s : option pystr) : res pystr :=
  match s with
  | Some s => Ret (replace FENCE [] (replace FENCE_JSON [] s))
  | None => Raise AttributeError
  end.

(** The fixed text of the two prompts, around the embedded fields. *)
Definition EXTRACT_HEAD : pystr := py "
    请从以下简历文本中提取关键信息。
    简历内容: ".

Definition EXTRACT_TAIL : pystr := py "... (截断以防过长)
    
    要求输出为严格的 JSON 格式，不包含 Markdown 标记。包含以下字段：
    - name (姓名)
    - phone (电话)
    - email (邮箱)
    - education (学历简述)
    - experience_years (工作年限，数字)
    - skills (技能列表)
    ".

Definition MATCH_HEAD : pystr := py "
        我是招聘官。请对比简历和岗位描述。
        简历内容: ".

Definition MATCH_MID : pystr := py "
        岗位描述: ".

Definition MATCH_TAIL : pystr := py "
        
        请给出：
        1. score (0-100的整数评分)
        2. analysis (简短的匹配分析，不超过100字)
        
        输出为严格的 JSON 格式。
        ".

Definition extract_prompt (resume_text : pystr) : pystr :=
  EXTRACT_HEAD ++ slice_to 2500 resume_text ++ EXTRACT_TAIL.

Definition match_prompt (resume_text jd_text : pystr) : pystr :=
  MATCH_HEAD ++ slice_to 2000 resume_text ++ MATCH_MID
  ++ slice_to 1000 jd_text ++ MATCH_TAIL.

Definition raw_text_fallback (extracted_info_str : option pystr) : pyobj :=
  PyDict [(py "raw_text", py_of_optstr extracted_info_str)].

Definition parsing_error_fallback : pyobj :=
  PyDict [(py "score", PyInt 0); (py "analysis", PyStr (py "AI Parsing Error"))].

(** The dictionary [response_data] of step 6. *)
Definition make_response (resume_text : pystr) (extracted_info match_result : pyobj)
    : pyobj :=
  PyDict [ (py "resume_text_preview", PyStr (slice_to 200 resume_text));
           (py "extracted_info", extracted_info);
           (py "match_result", match_result) ].

(** What [call_ai_service] returns for an answer of the service. *)
Definition completion (g : generation) : option pystr :=
  match g with
  | Response status_code content =>
    if status_code =? HTTPStatus_OK then content else None
  | CallRaises => None
  end.

Section Handler.
Context `{JsonModule}.

(** The two [try: ... except: ...] blocks that clean and parse a model
    answer, at the extraction and at the matching call site. *)
Definition sanitize_extract (extracted_info_str : option pystr) : pyobj :=
  try_except
    (res_bind (strip_fences extracted_info_str) json_loads)
    (raw_text_fallback extracted_info_str).

Definition sanitize_match (match_res_str : option pystr) : pyobj :=
  try_except
    (res_bind (strip_fences match_res_str) json_loads)
    parsing_error_fallback.

(** Steps 4 to 7 of [analyze_resume]: what runs after a cache miss. *)
Definition analyze_miss (r_client : option redis_client) (o : outside)
    (resume_text jd_text cache_key : pystr) : M http :=
  let* extracted_info_str := call_ai_service o (extract_prompt resume_text) in
  let extracted_info := sanitize_extract extracted_info_str in
  let* match_result :=
    (if truthy jd_text then
       let* match_res_str := call_ai_service o (match_prompt resume_text jd_text) in
       ret (sanitize_match match_res_str)
     else ret (PyDict [])) in
  let response_data := make_response resume_text extracted_info match_result in
  let* _ :=
    (match r_client with
     | Some _ => client_setex o cache_key 3600 (json_dumps response_data)
     | None => ret tt
     end) in
  ret (jsonify response_data).

(** Step 3: the lookup.  [Some data] is a hit with a non-empty value. *)
Definition cache_lookup (r_client : option redis_client) (o : outside)
    (cache_key : pystr) : M (option pystr) :=
  match r_client with
  | Some _ =>
    let* cached_data := client_get o cache_key in
    match cached_data with
    | Some data => if truthy data then ret (Some data) else ret None
    | None => ret None
    end
  | None => ret None
  end.

Definition analyze_resume (r_client : option redis_client) (o : outside)
    (rq : request) : M http :=
  match files_resume rq with
  | None =>
    ret (Respond 400 (PyDict [(py "error", PyStr (py "No resume file provided"))]))
  | Some file =>
    let jd_text := default [] (form_jd_text rq) in
    match extract_text_from_pdf file with
    | Raise e =>
      ret (Respond 500
             (PyDict [(py "error", PyStr (py "Failed to parse PDF: " ++ exn_str e))]))
    | Ret resume_text =>
      let* cache_key := lift (get_cache_key resume_text jd_text) in
      let* hit := cache_lookup r_client o cache_key in
      match hit with
      | Some cached_data =>
        let* data := lift (json_loads cached_data) in
        ret (jsonify data)
      | None => analyze_miss r_client o resume_text jd_text cache_key
      end
    end
  end.

End Handler.

(** ** The [json] module of CPython, for the examples

    The grammar the C scanner accepts and the text the encoder writes with
    its default settings ([ensure_ascii], separators [", "] and [": "]).
    A [float] keeps the text of its token.  [fuel] bounds the number of
    nested calls; twice the length of the text is never reached. *)

Module Json.

Definition is_ws (c : Z) : bool :=
  (c =? 32) || (c =? 9) || (c =? 10) || (c =? 13).

Fixpoint skip_ws (s : pystr) : pystr :=
  match s with
  | c :: s' => if is_ws c then skip_ws s' else s
  | [] => []
  end.

Definition is_digit (c : Z) : bool := (48 <=? c) && (c <=? 57).

Fixpoint span_digits (s : pystr) : pystr * pystr :=
  match s with
  | c :: s' =>
    if is_digit c then let '(d, r) := span_digits s' in (c :: d, r) else ([], s)
  | [] => ([], [])
  end.

Definition int_of_digits (ds : pystr) : Z :=
  foldl (fun a c => 10 * a + (c - 48)) 0 ds.

(** The optional fraction [\.\d+] and exponent [[eE][-+]?\d+] of a number. *)
Definition match_frac (s : pystr) : pystr * pystr :=
  match s with
  | 46 :: r =>
    let '(d, r') := span_digits r in
    match d with [] => ([], s) | _ => (46 :: d, r') end
  | _ => ([], s)
  end.

Definition match_exp (s : pystr) : pystr * pystr :=
  match s with
  | e :: r =>
    if (e =? 101) || (e =? 69) then
      let '(sign, r1) :=
        match r with
        | sg :: r' => if (sg =? 43) || (sg =? 45) then ([sg], r') else ([], r)
        | [] => ([], r)
        end in
      let '(d, r2) := span_digits r1 in
      match d with [] => ([], s) | _ => (e :: sign ++ d, r2) end
    else ([], s)
  | [] => ([], s)
  end.

(** [NUMBER_RE.match]: an optional minus sign, then 0 or a digit from 1 to 9
    and more digits, then the optional parts. *)
Definition match_number (s : pystr) : option (pyobj * pystr) :=
  let '(neg, s1) := match s with 45 :: r => (true, r) | _ => (false, s) end in
  match s1 with
  | c :: r1 =>
    if is_digit c then
      let '(int_digits, r2) :=
        if c =? 48 then ([c], r1) else span_digits s1 in
      let '(frac, r3) := match_frac r2 in
      let '(exp, r4) := match_exp r3 in
      match frac, exp with
      | [], [] =>
        let n := int_of_digits int_digits in
        Some (PyInt (if neg then - n else n), r4)
      | _, _ =>
        Some (PyFloat ((if neg then [45] else []) ++ int_digits ++ frac ++ exp), r4)
      end
    else None
  | [] => None
  end.

Definition hex_val (c : Z) : option Z :=
  if is_digit c then Some (c - 48)
  else if (97 <=? c) && (c <=? 102) then Some (c - 87)
  else if (65 <=? c) && (c <=? 70) then Some (c - 55)
  else None.

Definition hex4 (a b c d : Z) : option Z :=
  match hex_val a, hex_val b, hex_val c, hex_val d with
  | Some a, Some b, Some c, Some d => Some (4096 * a + 256 * b + 16 * c + d)
  | _, _, _, _ => None
  end.

(** The character of a one-letter escape. *)
Definition unescape (esc : Z) : option Z :=
  if esc =? 34 then Some 34 else if esc =? 92 then Some 92
  else if esc =? 47 then Some 47 else if esc =? 98 then Some 8
  else if esc =? 102 then Some 12 else if esc =? 110 then Some 10
  else if esc =? 114 then Some 13 else if esc =? 116 then Some 9
  else None.

Definition cons_char (c : Z) (r : option (pystr * pystr)) : option (pystr * pystr) :=
  match r with
  | Some (str, rest) => Some (c :: str, rest)
  | None => None
  end.

(** [scanstring], strict: [s] starts after the opening quote. *)
Fixpoint scanstring (s : pystr) : option (pystr * pystr) :=
  match s with
  | [] => None
  | c :: r =>
    if c =? 34 then Some ([], r)
    else if c =? 92 then
      match r with
      | [] => None
      | esc :: r1 =>
        if esc =? 117 then
          match r1 with
          | a :: b :: c1 :: d :: r2 =>
            match hex4 a b c1 d with
            | None => None
            | Some uni =>
              match r2 with
              | 92 :: 117 :: r3 =>
                if (0xd800 <=? uni) && (uni <=? 0xdbff) then
                  match r3 with
                  | a2 :: b2 :: c2 :: d2 :: r4 =>
                    match hex4 a2 b2 c2 d2 with
                    | None => None
                    | Some uni2 =>
                      if (0xdc00 <=? uni2) && (uni2 <=? 0xdfff) then
                        cons_char
                          (0x10000 + Z.lor (Z.shiftl (uni - 0xd800) 10) (uni2 - 0xdc00))
                          (scanstring r4)
                      else cons_char uni (scanstring r2)
                    end
                  | _ => None
                  end
                else cons_char uni (scanstring r2)
              | _ => cons_char uni (scanstring r2)
              end
            end
          | _ => None
          end
        else
          match unescape esc with
          | Some ch => cons_char ch (scanstring r1)
          | None => None
          end
      end
    else if c <? 32 then None
    else cons_char c (scanstring r)
  end.

(** [d[k] = v] on a [dict]: a present key keeps its place. *)
Fixpoint dict_set (d : list (pystr * pyobj)) (k : pystr) (v : pyobj)
    : list (pystr * pyobj) :=
  match d with
  | [] => [(k, v)]
  | (k', v') :: d' =>
    if bool_decide (k' = k) then (k', v) :: d' else (k', v') :: dict_set d' k v
  end.

(** [scan_once] at the start of a value; the loops of [JSONArray] (at the
    start of an item) and of [JSONObject] (after a key's opening quote). *)
Fixpoint scan_once (fuel : nat) (s : pystr) : option (pyobj * pystr) :=
  match fuel with
  | O => None
  | S f =>
    match s with
    | [] => None
    | c :: r =>
      if c =? 34 then
        match scanstring r with
        | Some (str, rest) => Some (PyStr str, rest)
        | None => None
        end
      else if c =? 123 then
        match skip_ws r with
        | 125 :: r' => Some (PyDict [], r')
        | 34 :: r' => object_items f [] r'
        | _ => None
        end
      else if c =? 91 then
        match skip_ws r with
        | 93 :: r' => Some (PyList [], r')
        | r' => array_items f [] r'
        end
      else if startswith (py "null") s then Some (PyNone, drop 4 s)
      else if startswith (py "true") s then Some (PyBool true, drop 4 s)
      else if startswith (py "false") s then Some (PyBool false, drop 5 s)
      else
        match match_number s with
        | Some x => Some x
        | None =>
          if startswith (py "NaN") s then Some (PyFloat (py "NaN"), drop 3 s)
          else if startswith (py "Infinity") s
          then Some (PyFloat (py "Infinity"), drop 8 s)
          else if startswith (py "-Infinity") s
          then Some (PyFloat (py "-Infinity"), drop 9 s)
          else None
        end
    end
  end
with array_items (fuel : nat) (values : list pyobj) (s : pystr)
    : option (pyobj * pystr) :=
  match fuel with
  | O => None
  | S f =>
    match scan_once f s with
    | None => None
    | Some (value, r) =>
      match skip_ws r with
      | 93 :: r' => Some (PyList (values ++ [value]), r')
      | 44 :: r' => array_items f (values ++ [value]) (skip_ws r')
      | _ => None
      end
    end
  end
with object_items (fuel : nat) (pairs : list (pystr * pyobj)) (s : pystr)
    : option (pyobj * pystr) :=
  match fuel with
  | O => None
  | S f =>
    match scanstring s with
    | None => None
    | Some (key, r) =>
      match skip_ws r with
      | 58 :: r1 =>
        match scan_once f (skip_ws r1) with
        | None => None
        | Some (value, r2) =>
          match skip_ws r2 with
          | 125 :: r3 => Some (PyDict (dict_set pairs key value), r3)
          | 44 :: r3 =>
            match skip_ws r3 with
            | 34 :: r4 => object_items f (dict_set pairs key value) r4
            | _ => None
            end
          | _ => None
          end
        end
      | _ => None
      end
    end
  end.

(** [json.loads(s)] for a [str]. *)
Definition loads (s : pystr) : res pyobj :=
  if startswith [0xFEFF] s then Raise JSONDecodeError
  else
    match scan_once (2 * length s + 2) (skip_ws s) with
    | Some (obj, rest) =>
      match skip_ws rest with
      | [] => Ret obj
      | _ => Raise JSONDecodeError
      end
    | None => Raise JSONDecodeError
    end.

Definition hex_digit (d : Z) : Z := if d <? 10 then 48 + d else 87 + d.

Definition u_escape (n : Z) : pystr :=
  [92; 117; hex_digit (Z.land (Z.shiftr n 12) 15); hex_digit (Z.land (Z.shiftr n 8) 15);
   hex_digit (Z.land (Z.shiftr n 4) 15); hex_digit (Z.land n 15)].

(** One character of [encode_basestring_ascii]. *)
Definition escape_char (c : Z) : pystr :=
  if c =? 34 then [92; 34] else if c =? 92 then [92; 92]
  else if c =? 10 then [92; 110] else if c =? 13 then [92; 114]
  else if c =? 9 then [92; 116] else if c =? 8 then [92; 98]
  else if c =? 12 then [92; 102]
  else if (32 <=? c) && (c <=? 126) then [c]
  else if c <? 0x10000 then u_escape c
  else
    let n := c - 0x10000 in
    u_escape (Z.lor 0xd800 (Z.land (Z.shiftr n 10) 0x3ff))
    ++ u_escape (Z.lor 0xdc00 (Z.land n 0x3ff)).

Definition encode_string (s : pystr) : pystr :=
  [34] ++ (s ≫= escape_char) ++ [34].

Fixpoint uint_chars (u : Decimal.uint) : pystr :=
  match u with
  | Decimal.Nil => []
  | Decimal.D0 u => 48 :: uint_chars u
  | Decimal.D1 u => 49 :: uint_chars u
  | Decimal.D2 u => 50 :: uint_chars u
  | Decimal.D3 u => 51 :: uint_chars u
  | Decimal.D4 u => 52 :: uint_chars u
  | Decimal.D5 u => 53 :: uint_chars u
  | Decimal.D6 u => 54 :: uint_chars u
  | Decimal.D7 u => 55 :: uint_chars u
  | Decimal.D8 u => 56 :: uint_chars u
  | Decimal.D9 u => 57 :: uint_chars u
  end.

(** [str(n)] for an [int]. *)
Definition int_repr (n : Z) : pystr :=
  match Z.to_int n with
  | Decimal.Pos u => uint_chars u
  | Decimal.Neg u => 45 :: uint_chars u
  end.

Fixpoint join (sep : pystr) (parts : list pystr) : pystr :=
  match parts with
  | [] => []
  | [x] => x
  | x :: rest => x ++ sep ++ join sep rest
  end.

(** [json.dumps(obj)]. *)
Fixpoint dumps (obj : pyobj) : pystr :=
  match obj with
  | PyNone => py "null"
  | PyBool true => py "true"
  | PyBool false => py "false"
  | PyInt n => int_repr n
  | PyFloat repr => repr
  | PyStr s => encode_string s
  | PyList items => [91] ++ join (py ", ") (map dumps items) ++ [93]
  | PyDict items =>
    [123]
    ++ join (py ", ")
         (map (fun kv => encode_string (fst kv) ++ py ": " ++ dumps (snd kv)) items)
    ++ [125]
  end.

End Json.

(** The module as an implementation of the interface. *)
Definition py_json : JsonModule :=
  {| json_loads := Json.loads; json_dumps := Json.dumps |}.

(** ** Whitespace normalisation, as the specification words it *)

(** The words of a text: its maximal runs of characters that are not
    whitespace.  [w] is the word being read. *)
Fixpoint words_from (w : pystr) (s : pystr) : list pystr :=
  match s with
  | [] => match w with [] => [] | _ => [w] end
  | c :: s' =>
    if isspace c
    then match w with [] => words_from [] s' | _ => w :: words_from [] s' end
    else words_from (w ++ [c]) s'
  end.

Definition words (s : pystr) : list pystr := words_from [] s.

(** The words joined by single spaces. *)
Fixpoint join_sp (ws : list pystr) : pystr :=
  match ws with
  | [] => []
  | [w] => w
  | w :: ws' => w ++ SPACE :: join_sp ws'
  end.

(** Every run of whitespace collapsed to one space, none at either end. *)
Definition collapse_and_trim (s : pystr) : pystr := join_sp (words s).

(** ** Occurrences of a marker *)

(** [old in s]: some suffix of [s] starts with [old]. *)
Fixpoint occurs (old s : pystr) : bool :=
  match s with
  | [] => startswith old []
  | _ :: s' => startswith old s || occurs old s'
  end.

(** The number of backquotes [s] starts with. *)
Fixpoint ticks (s : pystr) : nat :=
  match s with
  | c :: s' => if c =? 96 then S (ticks s') else O
  | [] => O
  end.

Definition nonspace (w : pystr) : Prop := Forall (fun c => isspace c = false) w.

(** A word: not empty, no whitespace in it. *)
Definition is_word (w : pystr) : Prop := w <> [] /\ nonspace w.

(** ** What one run of the handler computes, named for the statements *)

Section Observed.
Context `{JsonModule}.

(** The request carries a file that reads as [resume_text], its job
    description is [jd_text], and the two have the key [cache_key]. *)
Definition keyed (rq : request) (resume_text jd_text cache_key : pystr) : Prop :=
  exists file,
    files_resume rq = Some file
    /\ extract_text_from_pdf file = Ret resume_text
    /\ default [] (form_jd_text rq) = jd_text
    /\ get_cache_key resume_text jd_text = Ret cache_key.

(** The request got as far as the cache lookup, and the lookup answered
    [hit]: [None] is a miss, [Some data] a hit. *)
Definition looked_up (r_client : option redis_client) (o : outside)
    (rq : request) (w : world) (resume_text jd_text cache_key : pystr)
    (hit : option pystr) : Prop :=
  keyed rq resume_text jd_text cache_key
  /\ cache_lookup r_client o cache_key w = (Ret hit, w).


(** The cache write of step 7 does not raise: there is no client, or the
    server answers. *)
Definition write_ok (r_client : option redis_client) (o : outside) : Prop :=
  r_client = None \/ setex_up o = true.

Definition extracted_info_of (o : outside) (resume_text : pystr) : pyobj :=
  sanitize_extract (completion (model o (extract_prompt resume_text))).

Definition match_result_of (o : outside) (resume_text jd_text : pystr) : pyobj :=
  if truthy jd_text
  then sanitize_match (completion (model o (match_prompt resume_text jd_text)))
  else PyDict [].

Definition response_of (o : outside) (resume_text jd_text : pystr) : pyobj :=
  make_response resume_text (extracted_info_of o resume_text)
    (match_result_of o resume_text jd_text).

(** The prompts of one miss, in the order they are sent. *)
Definition prompts_sent (resume_text jd_text : pystr) : list pystr :=
  extract_prompt resume_text
  :: (if truthy jd_text then [match_prompt resume_text jd_text] else []).

(** A completion call that failed: the call raised, or the status is not 200. *)
Definition call_failed (g : generation) : Prop :=
  match g with
  | CallRaises => True
  | Response status_code _ => status_code <> HTTPStatus_OK
  end.

(** Cleaning and parsing this answer raises. *)
Definition unparseable (raw : option pystr) : Prop :=
  exists e, res_bind (strip_fences raw) json_loads = Raise e.

End Observed.

(** ** Bytes and hash collisions *)

Definition is_byte (b : Z) : Prop := 0 <= b < 256.

(** Two different byte strings with one MD5 digest. *)
Definition md5_collision (b1 b2 : list Z) : Prop :=
  b1 <> b2 /\ Hashlib.md5 b1 = Hashlib.md5 b2.

(** ** Pages, code points and digests *)

(** The words of all the pages of a document, in page order; a page
    without text ([None]) has none. *)
Definition page_words (texts : list (option pystr)) : list pystr :=
  texts ≫= (fun t => words (default [] t)).

(** [page.extract_text()] returned, with a text or with [None]. *)
Definition returns (p : pdf_page) : Prop := exists t, p = Ret t.

(** The code points of a [str], and the surrogates among them. *)
Definition is_code_point (c : Z) : Prop := 0 <= c <= 0x10FFFF.

Definition is_surrogate (c : Z) : Prop := 0xD800 <= c <= 0xDFFF.

(** A lower-case hexadecimal digit: [0] to [9], [a] to [f]. *)
Definition is_hex_char (c : Z) : Prop := 48 <= c <= 57 \/ 97 <= c <= 102.

(** ** A concrete run, for the examples *)

Module Demo.

Definition client : redis_client := Redis (py "cache.local") 6379 [].

(** A document of three pages, the second without text. *)
Definition upload : pdf_upload :=
  Ret [Ret (Some (py "John  Doe")); Ret None; Ret (Some (py " Go, Python "))].

Definition text : pystr := py "John Doe Go, Python".

(** The service answers [a1] to the extraction prompt, [a2] to any other. *)
Definition answers (a1 a2 : generation) (prompt : pystr) : generation :=
  if startswith EXTRACT_HEAD prompt then a1 else a2.

(** Redis answers at the instant [t]. *)
Definition redis_up (t : Z) (m : pystr -> generation) : outside :=
  Outside true t true t m.

(** Redis does not answer. *)
Definition redis_down (m : pystr -> generation) : outside :=
  Outside false 0 false 0 m.

Definition w0 : world := World ∅ [].

Definition jd : pystr := py "Senior backend engineer, Go required".

(** The key of [text] with the job description [jd_text]. *)
Definition key (jd_text : pystr) : pystr :=
  match get_cache_key text jd_text with
  | Ret k => k
  | Raise _ => []
  end.



(** A one-page document whose text, followed by [jd_suffix], is [text]. *)
Definition upload_prefix : pdf_upload := Ret [Ret (Some (py "John Doe Go,"))].

Definition jd_suffix : pystr := py " Python".

Definition prose : generation :=
  Response 200 (Some (py "Sorry, no JSON today.")).

Definition bad_status : generation := Response 500 None.

Definition jane : generation :=
  Response 200 (Some (pyq "```json {'name': 'Jane'} ```")).

Definition scored : generation :=
  Response 200 (Some (pyq "{'score': 85, 'analysis': 'fits'}")).

End Demo.

(** ** Proof steps for bit arithmetic *)

(** Linear arithmetic with division and remainder by constants. *)
Ltac dlia := Z.div_mod_to_equations; lia.

(** Decide the comparisons of the goal, closing the impossible cases. *)
Ltac tests :=
  repeat match goal with
         | |- context [?a <? ?b] => destruct (Z.ltb_spec a b); try dlia
         end.

(** * Properties *)

Example py_ascii : py "a b" = [97; 32; 98].
Proof. reflexivity. Qed.

Example py_cjk : py "简历" = [0x7B80; 0x5386].
Proof. reflexivity. Qed.

Example replace_leftmost : replace (py "aa") (py "b") (py "aaaxaa") = py "baxb".
Proof. reflexivity. Qed.

Example md5_empty :
  Hashlib.hexlify (Hashlib.md5 []) = py "d41d8cd98f00b204e9800998ecf8427e".
Proof. vm_compute. reflexivity. Qed.

Example md5_abc :
  Hashlib.hexlify (Hashlib.md5 (py "abc")) = py "900150983cd24fb0d6963f7d28e17f72".
Proof. vm_compute. reflexivity. Qed.

Example md5_two_blocks :
  Hashlib.hexlify (Hashlib.md5 (py
    "12345678901234567890123456789012345678901234567890123456789012345678901234567890"))
  = py "57edf4a22be3c955ac49da2e2107b67a".
Proof. vm_compute. reflexivity. Qed.

Example encode_utf8_cjk :
  Hashlib.encode_utf8 (py "简") = Ret [0xE7; 0xAE; 0x80].
Proof. reflexivity. Qed.

(** ** Normalisation *)

Section Normalize.

Implicit Types (s t w : pystr) (c : Z).

Lemma isspace_SPACE : isspace SPACE = true.
Proof. reflexivity. Qed.

Lemma rstrip_snoc s c :
  rstrip (s ++ [c]) = if isspace c then rstrip s else s ++ [c].
Proof.
  induction s as [|d s IH]; simpl.
  - destruct (isspace c); reflexivity.
  - rewrite IH. destruct (isspace c) eqn:Ec.
    + reflexivity.
    + destruct (s ++ [c]) eqn:E; [by destruct s|reflexivity].
Qed.

Lemma rstrip_app s t :
  rstrip (s ++ t) = match rstrip t with [] => rstrip s | r => s ++ r end.
Proof.
  induction s as [|d s IH]; simpl.
  - destruct (rstrip t); reflexivity.
  - rewrite IH. destruct (rstrip t) eqn:E; [reflexivity|].
    destruct (s ++ z :: l) eqn:E'; [by destruct s|reflexivity].
Qed.

Lemma rstrip_word w : nonspace w -> rstrip w = w.
Proof.
  induction 1 as [|c w Hc Hw IH]; simpl; [reflexivity|].
  rewrite IH, Hc. destruct w; reflexivity.
Qed.

Lemma words_from_cons_ne w s : w <> [] -> words_from w s <> [].
Proof.
  revert w; induction s as [|c s IH]; intros w Hw; simpl.
  - by destruct w.
  - destruct (isspace c).
    + by destruct w.
    + apply IH. by destruct w.
Qed.

Lemma join_sp_cons w ws :
  ws <> [] -> join_sp (w :: ws) = w ++ SPACE :: join_sp ws.
Proof. destruct ws; [done|reflexivity]. Qed.

Lemma join_sp_ne w ws : w <> [] -> join_sp (w :: ws) <> [].
Proof. destruct ws; simpl; [done|]. by destruct w. Qed.

Lemma join_words_from_ne w s : w <> [] -> join_sp (words_from w s) <> [].
Proof.
  revert w; induction s as [|c s IH]; intros w Hw; simpl.
  - by destruct w.
  - destruct (isspace c).
    + destruct w; [done|]. by apply join_sp_ne.
    + apply IH. by destruct w.
Qed.

(** After a word [w]: the substituted rest, trimmed on the right, is the
    rest of the words joined. *)
Lemma rstrip_cons_ne c t : rstrip t <> [] -> rstrip (c :: t) = c :: rstrip t.
Proof. intros Ht; simpl. by destruct (rstrip t). Qed.

Lemma rstrip_sub_ws_after_word s :
  forall w, is_word w ->
    rstrip (w ++ sub_ws false s) = join_sp (words_from w s)
    /\ rstrip (w ++ SPACE :: sub_ws true s) = join_sp (w :: words_from [] s).
Proof.
  induction s as [|c s IH]; intros w [Hne Hw].
  - cbn [sub_ws words_from]. rewrite app_nil_r. split.
    + rewrite rstrip_word by done. by destruct w.
    + rewrite rstrip_app. cbn [rstrip]. rewrite isspace_SPACE.
      by apply rstrip_word.
  - cbn [sub_ws words_from]. destruct (isspace c) eqn:Ec.
    + destruct (IH w (conj Hne Hw)) as [_ IH2].
      destruct w; [done|]. by split.
    + assert (Hwc : is_word (w ++ [c])).
      { split; [by destruct w|]. apply Forall_app; split; [done|]. by constructor. }
      assert (Hc : is_word [c]) by (split; [done|by repeat constructor]).
      split.
      * destruct (IH _ Hwc) as [IH1 _].
        by rewrite <- IH1, <- app_assoc.
      * destruct (IH _ Hc) as [IH1 _].
        change ([] ++ [c]) with [c]. change ([c] ++ sub_ws false s)
          with (c :: sub_ws false s) in IH1.
        pose proof (join_words_from_ne [c] s ltac:(done)) as Hj.
        rewrite join_sp_cons by (by apply words_from_cons_ne).
        rewrite rstrip_app, rstrip_cons_ne by (by rewrite IH1).
        by rewrite IH1.
Qed.

Lemma normalize_words_gen s :
  rstrip (lstrip (sub_ws false s)) = join_sp (words_from [] s)
  /\ rstrip (lstrip (sub_ws true s)) = join_sp (words_from [] s).
Proof.
  induction s as [|c s [IH1 IH2]]; [done|].
  simpl. destruct (isspace c) eqn:Ec.
  - simpl. auto.
  - simpl lstrip. rewrite Ec.
    assert (Hc : is_word [c]) by (split; [done|by repeat constructor]).
    destruct (rstrip_sub_ws_after_word s _ Hc) as [H1 _]. simpl in H1. auto.
Qed.

Lemma normalize_collapse s : normalize s = collapse_and_trim s.
Proof. apply normalize_words_gen. Qed.

Lemma words_from_nonspace_app w t s :
  nonspace t -> words_from w (t ++ s) = words_from (w ++ t) s.
Proof.
  intros Ht; revert w; induction Ht as [|c t Hc Ht IH]; intros w; simpl.
  - by rewrite app_nil_r.
  - rewrite Hc, IH. by rewrite <- app_assoc.
Qed.

Lemma words_join ws : Forall is_word ws -> words (join_sp ws) = ws.
Proof.
  unfold words. induction 1 as [|w ws [Hne Hw] Hws IH]; [done|].
  destruct ws as [|w' ws].
  - simpl. rewrite <- (app_nil_r w) at 1.
    rewrite words_from_nonspace_app by done. simpl. by destruct w.
  - rewrite join_sp_cons by done.
    rewrite words_from_nonspace_app by done. simpl app.
    cbn [words_from]. rewrite isspace_SPACE, IH. by destruct w.
Qed.

Lemma words_from_are_words s :
  forall w, nonspace w -> Forall is_word (words_from w s).
Proof.
  induction s as [|c s IH]; intros w Hw; simpl.
  - destruct w; [constructor|]. constructor; [by split|constructor].
  - destruct (isspace c) eqn:Ec.
    + destruct w; [by apply IH, Forall_nil|].
      constructor; [by split|]. by apply IH, Forall_nil.
    + apply IH. apply Forall_app; split; [done|by constructor].
Qed.

End Normalize.

(** C6.  For every string [s], [normalize s] is [s] with every maximal run
    of whitespace collapsed to one space and no whitespace at either end
    (the words of [s] joined by single spaces); it is a total function; and
    normalising twice is normalising once. *)
Theorem normalize_collapses_trims_idempotent :
  forall s : pystr,
    normalize s = collapse_and_trim s
    /\ normalize (normalize s) = normalize s.
Proof.
  intros s. split; [apply normalize_collapse|].
  rewrite !normalize_collapse. unfold collapse_and_trim.
  rewrite words_join; [reflexivity|].
  apply words_from_are_words. constructor.
Qed.

(** ** Prompts *)

(** C8.  However long the inputs are, the extraction prompt embeds the first
    2500 characters of the document text at most, and the matching prompt
    the first 2000 characters of the document text and the first 1000 of the
    job description at most: each prompt is its fixed text around those
    prefixes, and does not depend on anything beyond them. *)
Theorem prompts_embed_bounded_prefixes :
  forall resume_text jd_text : pystr,
    (exists doc,
        extract_prompt resume_text = EXTRACT_HEAD ++ doc ++ EXTRACT_TAIL
        /\ doc `prefix_of` resume_text /\ (length doc <= 2500)%nat)
    /\ (exists doc jd,
        match_prompt resume_text jd_text
        = MATCH_HEAD ++ doc ++ MATCH_MID ++ jd ++ MATCH_TAIL
        /\ doc `prefix_of` resume_text /\ (length doc <= 2000)%nat
        /\ jd `prefix_of` jd_text /\ (length jd <= 1000)%nat)
    /\ (forall text', take 2500 text' = take 2500 resume_text ->
          extract_prompt text' = extract_prompt resume_text)
    /\ (forall text' jd', take 2000 text' = take 2000 resume_text ->
          take 1000 jd' = take 1000 jd_text ->
          match_prompt text' jd' = match_prompt resume_text jd_text).
Proof.
  intros resume_text jd_text. unfold extract_prompt, match_prompt, slice_to.
  repeat split.
  - exists (take 2500 resume_text). repeat split.
    + apply prefix_take.
    + rewrite length_take. lia.
  - exists (take 2000 resume_text), (take 1000 jd_text). repeat split.
    + apply prefix_take.
    + rewrite length_take. lia.
    + apply prefix_take.
    + rewrite length_take. lia.
  - intros text' E. by rewrite E.
  - intros text' jd' E E'. by rewrite E, E'.
Qed.

(** ** The cache key *)

(** Bit operations on disjoint fields are sums, masks are remainders. *)

Section Encoding.

Lemma land_disjoint k n lo :
  0 <= n -> 0 <= lo < 2 ^ n -> Z.land (k * 2 ^ n) lo = 0.
Proof.
  intros Hn Hlo. apply Z.bits_inj'; intros i Hi.
  rewrite Z.land_spec, Z.bits_0.
  destruct (Z.lt_ge_cases i n) as [Hlt|Hge].
  - by rewrite Z.mul_pow2_bits_low.
  - destruct (Z.eq_dec lo 0) as [->|Hne].
    + by rewrite Z.bits_0, andb_false_r.
    + rewrite (Z.bits_above_log2 lo i), andb_false_r; [reflexivity|lia|].
      assert (Z.log2 lo < n) by (apply Z.log2_lt_pow2; lia). lia.
Qed.

Lemma lor_disjoint k n lo :
  0 <= n -> 0 <= lo < 2 ^ n -> Z.lor (k * 2 ^ n) lo = k * 2 ^ n + lo.
Proof.
  intros Hn Hlo. pose proof (land_disjoint k n lo Hn Hlo) as Hland.
  by rewrite <- (Z.lxor_lor _ _ Hland), (Z.add_nocarry_lxor _ _ Hland).
Qed.

Lemma lor_80 x : 0 <= x < 64 -> Z.lor 0x80 x = 128 + x.
Proof. intros. change 0x80 with (2 * 2 ^ 6). by rewrite lor_disjoint. Qed.

Lemma lor_C0 x : 0 <= x < 32 -> Z.lor 0xC0 x = 192 + x.
Proof. intros. change 0xC0 with (6 * 2 ^ 5). by rewrite lor_disjoint. Qed.

Lemma lor_E0 x : 0 <= x < 16 -> Z.lor 0xE0 x = 224 + x.
Proof. intros. change 0xE0 with (14 * 2 ^ 4). by rewrite lor_disjoint. Qed.

Lemma lor_F0 x : 0 <= x < 8 -> Z.lor 0xF0 x = 240 + x.
Proof. intros. change 0xF0 with (30 * 2 ^ 3). by rewrite lor_disjoint. Qed.

Lemma lor_shiftl a n y :
  0 <= n -> 0 <= y < 2 ^ n -> Z.lor (Z.shiftl a n) y = a * 2 ^ n + y.
Proof. intros. rewrite Z.shiftl_mul_pow2 by done. by apply lor_disjoint. Qed.

Lemma land_mask x n : 0 <= n -> Z.land x (2 ^ n - 1) = x mod 2 ^ n.
Proof.
  intros. rewrite <- Z.land_ones by done. f_equal.
  rewrite Z.ones_equiv. lia.
Qed.

Lemma land_3F x : Z.land x 0x3F = x mod 64.
Proof. exact (land_mask x 6 ltac:(lia)). Qed.
Lemma land_1F x : Z.land x 0x1F = x mod 32.
Proof. exact (land_mask x 5 ltac:(lia)). Qed.
Lemma land_0F x : Z.land x 0x0F = x mod 16.
Proof. exact (land_mask x 4 ltac:(lia)). Qed.
Lemma land_07 x : Z.land x 0x07 = x mod 8.
Proof. exact (land_mask x 3 ltac:(lia)). Qed.
Lemma land_FF x : Z.land x 0xFF = x mod 256.
Proof. exact (land_mask x 8 ltac:(lia)). Qed.

Ltac masks :=
  rewrite ?Z.shiftr_div_pow2 by lia;
  rewrite ?land_3F, ?land_1F, ?land_0F, ?land_07.

(** One character decodes back, whatever follows it. *)
Lemma utf8_decode_encode_char c bs rest :
  Hashlib.encode_char c = Some bs ->
  utf8_decode (bs ++ rest) = c :: utf8_decode rest.
Proof.
  unfold Hashlib.encode_char.
  destruct (Z.ltb_spec c 0); [done|].
  destruct (Z.ltb_spec c 0x80).
  { intros [= <-]. cbn [app utf8_decode]. by tests. }
  destruct (Z.ltb_spec c 0x800).
  { intros [= <-]. cbn [app utf8_decode]. masks.
    rewrite lor_C0, lor_80 by dlia. tests.
    f_equal. rewrite lor_shiftl by dlia. dlia. }
  destruct (Z.ltb_spec c 0x10000).
  { destruct ((0xD800 <=? c) && (c <=? 0xDFFF)); [done|].
    intros [= <-]. cbn [app utf8_decode]. masks.
    rewrite lor_E0, !lor_80 by dlia. tests.
    f_equal. rewrite (lor_shiftl _ 6) by dlia.
    rewrite (lor_shiftl _ 12) by dlia. dlia. }
  destruct (Z.ltb_spec c 0x110000); [|done].
  intros [= <-]. cbn [app utf8_decode]. masks.
  rewrite lor_F0, !lor_80 by dlia. tests.
  f_equal. rewrite (lor_shiftl _ 6) by dlia.
  rewrite (lor_shiftl _ 12) by dlia. rewrite (lor_shiftl _ 18) by dlia. dlia.
Qed.

Lemma utf8_decode_encode s bs :
  Hashlib.encode_utf8 s = Ret bs -> utf8_decode bs = s.
Proof.
  unfold Hashlib.encode_utf8.
  destruct (mapM Hashlib.encode_char s) as [bss|] eqn:Hm; [|done].
  intros [= <-]. apply mapM_Some in Hm.
  induction Hm as [|c bs s bss Hc _ IH]; [done|].
  cbn [concat]. by rewrite (utf8_decode_encode_char _ _ _ Hc), IH.
Qed.

(** The encoding is injective. *)
Lemma encode_utf8_inj s1 s2 bs :
  Hashlib.encode_utf8 s1 = Ret bs -> Hashlib.encode_utf8 s2 = Ret bs -> s1 = s2.
Proof.
  intros H1 H2.
  by rewrite <- (utf8_decode_encode _ _ H1), <- (utf8_decode_encode _ _ H2).
Qed.

Lemma hex_digit_inj d1 d2 :
  0 <= d1 < 16 -> 0 <= d2 < 16 ->
  Hashlib.hex_digit d1 = Hashlib.hex_digit d2 -> d1 = d2.
Proof.
  unfold Hashlib.hex_digit. intros H1 H2.
  destruct (Z.ltb_spec d1 10), (Z.ltb_spec d2 10); lia.
Qed.

Lemma hexlify_inj bs1 bs2 :
  Forall is_byte bs1 -> Forall is_byte bs2 ->
  Hashlib.hexlify bs1 = Hashlib.hexlify bs2 -> bs1 = bs2.
Proof.
  unfold Hashlib.hexlify. intros H1. revert bs2.
  induction H1 as [|b1 bs1 Hb1 _ IH]; intros bs2 H2; destruct H2 as [|b2 bs2 Hb2 H2];
    try done.
  cbn [mbind list_bind app]. intros [= Hhi Hlo Hrest].
  unfold is_byte in *.
  rewrite !Z.shiftr_div_pow2 in Hhi by lia. rewrite !land_0F in Hlo.
  apply hex_digit_inj in Hhi; [|dlia..].
  apply hex_digit_inj in Hlo; [|dlia..].
  f_equal; [dlia|]. by apply IH.
Qed.

Lemma bytes_le_bytes n x : Forall is_byte (Hashlib.bytes_le n x).
Proof.
  unfold Hashlib.bytes_le. apply Forall_fmap, Forall_forall. intros i _.
  simpl. rewrite land_FF. unfold is_byte. dlia.
Qed.

Lemma md5_bytes msg : Forall is_byte (Hashlib.md5 msg).
Proof.
  unfold Hashlib.md5.
  destruct (Hashlib.md5_blocks _ _ _) as [[[a b] c] d].
  repeat (apply Forall_app; split); apply bytes_le_bytes.
Qed.

End Encoding.

Lemma get_cache_key_value (text jd_text : pystr) (bytes : list Z) :
  Hashlib.encode_utf8 (text ++ jd_text) = Ret bytes ->
  get_cache_key text jd_text = Ret (Hashlib.hexlify (Hashlib.md5 bytes)).
Proof. unfold get_cache_key. by intros ->. Qed.

(** The key depends on the concatenation only. *)
Lemma get_cache_key_concat (d1 j1 d2 j2 : pystr) :
  d1 ++ j1 = d2 ++ j2 -> get_cache_key d1 j1 = get_cache_key d2 j2.
Proof. intros E. unfold get_cache_key. by rewrite E. Qed.

(** C1, as the code has it.  The key is the MD5 digest, in hexadecimal, of
    the UTF-8 bytes of the concatenation of the document text and the job
    description.  Two pairs have the same key if and only if their
    concatenations are equal, unless the two encodings are an MD5
    collision; so two pairs with the same concatenation, equal or not, have
    the same key. *)
Theorem get_cache_key_iff_concatenation :
  forall (d1 j1 d2 j2 : pystr) (b1 b2 : list Z),
    Hashlib.encode_utf8 (d1 ++ j1) = Ret b1 ->
    Hashlib.encode_utf8 (d2 ++ j2) = Ret b2 ->
    ~ md5_collision b1 b2 ->
    (get_cache_key d1 j1 = get_cache_key d2 j2 <-> d1 ++ j1 = d2 ++ j2).
Proof.
  intros d1 j1 d2 j2 b1 b2 H1 H2 Hnc. split; [|apply get_cache_key_concat].
  rewrite (get_cache_key_value _ _ _ H1), (get_cache_key_value _ _ _ H2).
  intros [= Hk]. apply hexlify_inj in Hk; [|apply md5_bytes..].
  destruct (decide (b1 = b2)) as [->|Hne].
  - by apply (encode_utf8_inj _ _ b2).
  - destruct Hnc. by split.
Qed.

Lemma get_cache_key_iff_concatenation_witness :
  get_cache_key (py "ab") (py "c") = get_cache_key (py "a") (py "bd")
  <-> py "ab" ++ py "c" = py "a" ++ py "bd".
Proof.
  apply (get_cache_key_iff_concatenation (py "ab") (py "c") (py "a") (py "bd")
           [97; 98; 99] [97; 98; 100]).
  - reflexivity.
  - reflexivity.
  - intros [_ Hc]. vm_compute in Hc. discriminate.
Defined.

(** C1, as stated, fails: the document [ab] with the job description [c]
    and the document [a] with the job description [bc] are distinct pairs
    with one key, the MD5 of [abc]. *)
Lemma get_cache_key_not_injective :
  (py "ab", py "c") <> (py "a", py "bc")
  /\ get_cache_key (py "ab") (py "c")
     = Ret (py "900150983cd24fb0d6963f7d28e17f72")
  /\ get_cache_key (py "a") (py "bc")
     = Ret (py "900150983cd24fb0d6963f7d28e17f72").
Proof. split; [discriminate|]. split; vm_compute; reflexivity. Qed.

(** ** The handler, step by step *)

Section HandlerFacts.
Context `{JsonModule}.

Implicit Types (o : outside) (w : world) (rq : request).

Lemma call_ai_service_eq o prompt w :
  call_ai_service o prompt w
  = (Ret (completion (model o prompt)), World (db w) (prompts w ++ [prompt])).
Proof.
  unfold call_ai_service, completion.
  destruct (model o prompt) as [|status_code content]; [reflexivity|].
  by destruct (status_code =? HTTPStatus_OK).
Qed.

(** What a miss does, in one equation: the two answers are cleaned and
    parsed, the prompts are logged, and the response is stored when there is
    a client and the server answers. *)
Lemma analyze_miss_eq r_client o resume_text jd_text cache_key w :
  analyze_miss r_client o resume_text jd_text cache_key w
  = let resp := response_of o resume_text jd_text in
    let sent := prompts w ++ prompts_sent resume_text jd_text in
    match r_client with
    | Some _ =>
      if setex_up o
      then (Ret (jsonify resp),
            World (redis_SETEX (db w) (setex_now o) cache_key 3600 (json_dumps resp))
              sent)
      else (Raise ConnectionError, World (db w) sent)
    | None => (Ret (jsonify resp), World (db w) sent)
    end.
Proof.
  unfold analyze_miss, response_of, extracted_info_of, match_result_of,
    prompts_sent, bind.
  rewrite call_ai_service_eq.
  destruct (truthy jd_text).
  - rewrite call_ai_service_eq. cbn [db prompts]. rewrite <- app_assoc.
    destruct r_client; [|reflexivity].
    unfold client_setex. cbn [db prompts]. by destruct (setex_up o).
  - unfold ret. cbn [db prompts].
    destruct r_client; [|reflexivity].
    unfold client_setex. cbn [db prompts]. by destruct (setex_up o).
Qed.

Lemma analyze_resume_miss r_client o rq w resume_text jd_text cache_key :
  looked_up r_client o rq w resume_text jd_text cache_key None ->
  analyze_resume r_client o rq w
  = analyze_miss r_client o resume_text jd_text cache_key w.
Proof.
  intros [(file & Hf & Ht & Hj & Hk) Hl]. unfold analyze_resume.
  rewrite Hf, Ht, Hj, Hk. unfold bind, lift. by rewrite Hl.
Qed.

Lemma cache_lookup_disabled o cache_key w :
  cache_lookup None o cache_key w = (Ret None, w).
Proof. reflexivity. Qed.

Lemma cache_lookup_down c o cache_key w :
  get_up o = false ->
  cache_lookup (Some c) o cache_key w = (Raise ConnectionError, w).
Proof. intros Hd. unfold cache_lookup, bind, client_get. by rewrite Hd. Qed.

Lemma cache_lookup_up c o cache_key w :
  get_up o = true ->
  cache_lookup (Some c) o cache_key w
  = (Ret (match redis_GET (db w) (get_now o) cache_key with
          | Some data => if truthy data then Some data else None
          | None => None
          end), w).
Proof.
  intros Hu. unfold cache_lookup, bind, client_get. rewrite Hu.
  destruct (redis_GET _ _ _) as [data|]; [|reflexivity].
  by destruct (truthy data).
Qed.

Lemma redis_GET_live (d : redis_db) now key value expires :
  d !! key = Some (value, expires) -> now < expires ->
  redis_GET d now key = Some value.
Proof.
  intros Hk Hlt. unfold redis_GET. rewrite Hk.
  destruct (Z.ltb_spec now expires); [reflexivity|lia].
Qed.

(** The lookup never changes the world. *)
Lemma cache_lookup_world r_client o cache_key w :
  (cache_lookup r_client o cache_key w).2 = w.
Proof.
  destruct r_client as [c|]; [|reflexivity].
  destruct (get_up o) eqn:Hu.
  - by rewrite cache_lookup_up.
  - by rewrite cache_lookup_down.
Qed.

Lemma sanitize_extract_unparseable raw :
  unparseable raw -> sanitize_extract raw = raw_text_fallback raw.
Proof. intros [e He]. unfold sanitize_extract. by rewrite He. Qed.


Lemma unparseable_None : unparseable None.
Proof. by exists AttributeError. Qed.

Lemma completion_failed g : call_failed g -> completion g = None.
Proof.
  destruct g as [|status_code content]; [reflexivity|]. simpl. intros Hs.
  destruct (Z.eqb_spec status_code HTTPStatus_OK); [contradiction|reflexivity].
Qed.

Lemma analyze_resume_miss_ok r_client o rq w resume_text jd_text cache_key :
  looked_up r_client o rq w resume_text jd_text cache_key None ->
  write_ok r_client o ->
  exists w',
    analyze_resume r_client o rq w
    = (Ret (jsonify (response_of o resume_text jd_text)), w')
    /\ prompts w' = prompts w ++ prompts_sent resume_text jd_text.
Proof.
  intros Hl Hw. rewrite (analyze_resume_miss _ _ _ _ _ _ _ Hl), analyze_miss_eq.
  cbv zeta. destruct r_client as [c|].
  - destruct Hw as [Hw|Hw]; [done|]. rewrite Hw. eauto.
  - eauto.
Qed.

End HandlerFacts.

(** ** Claims about the model calls *)



(** The prompts of any request: none, or those of a miss. *)
Lemma analyze_resume_prompts `{JsonModule} r_client o rq w :
  exists sent,
    prompts (analyze_resume r_client o rq w).2 = prompts w ++ sent
    /\ (sent = []
        \/ exists resume_text cache_key,
            looked_up r_client o rq w resume_text (default [] (form_jd_text rq))
              cache_key None
            /\ sent = prompts_sent resume_text (default [] (form_jd_text rq))).
Proof.
  unfold analyze_resume. destruct (files_resume rq) as [file|] eqn:Hf.
  2:{ exists []. rewrite app_nil_r. by split; [|left]. }
  destruct (extract_text_from_pdf file) as [resume_text|e] eqn:Ht.
  2:{ exists []. rewrite app_nil_r. by split; [|left]. }
  unfold bind, lift.
  destruct (get_cache_key resume_text _) as [cache_key|e] eqn:Hk.
  2:{ exists []. rewrite app_nil_r. by split; [|left]. }
  pose proof (cache_lookup_world r_client o cache_key w) as Hw.
  destruct (cache_lookup r_client o cache_key w) as [[[data|]|e] w'] eqn:Hl;
    cbn [snd] in Hw; subst w'.
  - exists []. rewrite app_nil_r. split; [|by left].
    by destruct (json_loads data).
  - exists (prompts_sent resume_text (default [] (form_jd_text rq))). split.
    + rewrite analyze_miss_eq. cbv zeta.
      destruct r_client; [destruct (setex_up o)|]; reflexivity.
    + right. exists resume_text, cache_key. split; [|done].
      split; [|done]. by exists file.
  - exists []. rewrite app_nil_r. by split; [|left].
Qed.

(** C9, as the code has it.  Every request sends no prompt (it was answered
    before the model stage: an error response, or a cache hit) or the
    prompts of a miss: the extraction prompt, and then the
    matching prompt exactly when the job description is not empty.  So a
    request with an empty job description never makes a matching call; when
    it reaches the model stage it makes one call, the extraction call, and
    the [match_result] of its response is the empty record. *)
Theorem empty_job_description_one_call `{JsonModule} :
  forall r_client o rq w,
    exists sent,
      prompts (analyze_resume r_client o rq w).2 = prompts w ++ sent
      /\ (default [] (form_jd_text rq) = [] ->
          sent = [] \/ exists resume_text, sent = [extract_prompt resume_text])
      /\ (forall resume_text jd_text cache_key,
            looked_up r_client o rq w resume_text jd_text cache_key None ->
            sent = prompts_sent resume_text jd_text
            /\ (jd_text = [] ->
                sent = [extract_prompt resume_text]
                /\ (write_ok r_client o ->
                    (analyze_resume r_client o rq w).1
                    = Ret (Respond 200
                             (make_response resume_text
                                (extracted_info_of o resume_text) (PyDict [])))))
            /\ (jd_text <> [] ->
                sent = [extract_prompt resume_text;
                        match_prompt resume_text jd_text])).
Proof.
  intros r_client o rq w.
  destruct (analyze_resume_prompts r_client o rq w) as (sent & Hp & Hs).
  exists sent. split; [exact Hp|]. split.
  - intros Hj. destruct Hs as [->|(t & k & _ & ->)]; [by left|].
    right. exists t. by rewrite Hj.
  - intros resume_text jd_text cache_key Hl.
    assert (Hsent : sent = prompts_sent resume_text jd_text).
    { rewrite (analyze_resume_miss _ _ _ _ _ _ _ Hl), analyze_miss_eq in Hp.
      cbv zeta in Hp.
      assert (Hp' : prompts w ++ prompts_sent resume_text jd_text
                    = prompts w ++ sent).
      { rewrite <- Hp. destruct r_client; [destruct (setex_up o)|]; reflexivity. }
      by apply app_inv_head in Hp'. }
    split; [exact Hsent|]. split.
    + intros ->. split; [exact Hsent|]. intros Hw.
      destruct (analyze_resume_miss_ok _ _ _ _ _ _ _ Hl Hw) as (w' & -> & _).
      reflexivity.
    + intros Hne. rewrite Hsent. unfold prompts_sent. by destruct jd_text.
Qed.

Lemma demo_keyed_no_jd :
  keyed (Request (Some Demo.upload) None) Demo.text [] (Demo.key []).
Proof.
  exists Demo.upload. split; [reflexivity|]. split; [vm_compute; reflexivity|].
  split; [reflexivity|]. vm_compute; reflexivity.
Qed.

Lemma demo_keyed_jd :
  keyed (Request (Some Demo.upload) (Some Demo.jd)) Demo.text Demo.jd
    (Demo.key Demo.jd).
Proof.
  exists Demo.upload. split; [reflexivity|]. split; [vm_compute; reflexivity|].
  split; [reflexivity|]. vm_compute; reflexivity.
Qed.

Lemma demo_miss_no_jd m t :
  looked_up (Some Demo.client) (Demo.redis_up t m)
    (Request (Some Demo.upload) None) Demo.w0 Demo.text [] (Demo.key []) None.
Proof. split; [exact demo_keyed_no_jd|]. by rewrite cache_lookup_up. Qed.

Lemma demo_miss_jd m t :
  looked_up (Some Demo.client) (Demo.redis_up t m)
    (Request (Some Demo.upload) (Some Demo.jd)) Demo.w0 Demo.text Demo.jd
    (Demo.key Demo.jd) None.
Proof. split; [exact demo_keyed_jd|]. by rewrite cache_lookup_up. Qed.

Lemma empty_job_description_one_call_witness :
  prompts (analyze_resume (H := py_json) (Some Demo.client)
             (Demo.redis_up 0 (Demo.answers Demo.jane Demo.scored))
             (Request (Some Demo.upload) None) Demo.w0).2
  = [extract_prompt Demo.text]
  /\ (analyze_resume (H := py_json) (Some Demo.client)
        (Demo.redis_up 0 (Demo.answers Demo.jane Demo.scored))
        (Request (Some Demo.upload) None) Demo.w0).1
     = Ret (Respond 200
              (make_response Demo.text
                 (extracted_info_of (H := py_json)
                    (Demo.redis_up 0 (Demo.answers Demo.jane Demo.scored))
                    Demo.text)
                 (PyDict []))).
Proof.
  destruct (empty_job_description_one_call (H := py_json) (Some Demo.client)
              (Demo.redis_up 0 (Demo.answers Demo.jane Demo.scored))
              (Request (Some Demo.upload) None) Demo.w0)
    as (sent & Hp & _ & Hm).
  destruct (Hm Demo.text [] (Demo.key [])
              (demo_miss_no_jd (Demo.answers Demo.jane Demo.scored) 0))
    as (_ & He & _).
  destruct (He eq_refl) as [Hs Hr].
  split.
  - rewrite Hp, Hs. reflexivity.
  - apply Hr. right. reflexivity.
Defined.

(** The same request, evaluated. *)
Example empty_job_description_run :
  analyze_resume (H := py_json) (Some Demo.client)
    (Demo.redis_up 0 (Demo.answers Demo.jane Demo.scored))
    (Request (Some Demo.upload) None) Demo.w0
  = (Ret (Respond 200 (PyDict
       [ (py "resume_text_preview", PyStr Demo.text);
         (py "extracted_info", PyDict [(py "name", PyStr (py "Jane"))]);
         (py "match_result", PyDict []) ])),
     World
       (redis_SETEX ∅ 0 (Demo.key []) 3600
          (Json.dumps (PyDict
             [ (py "resume_text_preview", PyStr Demo.text);
               (py "extracted_info", PyDict [(py "name", PyStr (py "Jane"))]);
               (py "match_result", PyDict []) ])))
       [extract_prompt Demo.text]).
Proof. vm_compute. reflexivity. Qed.

(** C9, as stated, fails on a cache hit.  A first request with the document
    [John Doe Go,] and the job description [ Python] is stored; a second
    request with the document [John Doe Go, Python] and no job description
    has the same key, so it is answered from the cache: it makes no
    completion call at all, and the [match_result] of its response is not
    the empty record. *)
Lemma empty_job_description_cache_hit :
  let first :=
    analyze_resume (H := py_json) (Some Demo.client)
      (Demo.redis_up 0 (Demo.answers Demo.jane Demo.scored))
      (Request (Some Demo.upload_prefix) (Some Demo.jd_suffix)) Demo.w0 in
  let second :=
    analyze_resume (H := py_json) (Some Demo.client)
      (Demo.redis_up 10 (Demo.answers Demo.jane Demo.scored))
      (Request (Some Demo.upload) None) first.2 in
  extract_text_from_pdf Demo.upload = Ret Demo.text
  /\ prompts second.2 = prompts first.2
  /\ second.1
     = Ret (Respond 200 (PyDict
         [ (py "resume_text_preview", PyStr (py "John Doe Go,"));
           (py "extracted_info", PyDict [(py "name", PyStr (py "Jane"))]);
           (py "match_result",
            PyDict [(py "score", PyInt 85);
                    (py "analysis", PyStr (py "fits"))]) ])).
Proof.
  cbv zeta. split; [vm_compute; reflexivity|].
  split; vm_compute; reflexivity.
Qed.



(** The same run, evaluated: both calls fail, both fields fall back. *)
Example failed_completion_run :
  analyze_resume (H := py_json) (Some Demo.client)
    (Demo.redis_up 0 (Demo.answers CallRaises Demo.bad_status))
    (Request (Some Demo.upload) (Some Demo.jd)) Demo.w0
  = (Ret (Respond 200 (PyDict
       [ (py "resume_text_preview", PyStr Demo.text);
         (py "extracted_info", PyDict [(py "raw_text", PyNone)]);
         (py "match_result", parsing_error_fallback) ])),
     World
       (redis_SETEX ∅ 0 (Demo.key Demo.jd) 3600
          (Json.dumps (PyDict
             [ (py "resume_text_preview", PyStr Demo.text);
               (py "extracted_info", PyDict [(py "raw_text", PyNone)]);
               (py "match_result", parsing_error_fallback) ])))
       [extract_prompt Demo.text; match_prompt Demo.text Demo.jd]).
Proof. vm_compute. reflexivity. Qed.

(** C7, evaluated on the code.  Both completion calls fail; each prompt is
    sent once and the two fields take their fallback records, as the claim
    says.  But the client's server does not answer the write of step 7,
    and the request does not complete: the handler ends in an uncaught
    [ConnectionError] after both prompts were sent.  The write is not
    guarded, the defect of C3. *)
Example failed_completion_write_raises :
  call_failed CallRaises
  /\ call_failed Demo.bad_status
  /\ extracted_info_of (H := py_json)
       (Outside true 0 false 0 (Demo.answers CallRaises Demo.bad_status))
       Demo.text
     = PyDict [(py "raw_text", PyNone)]
  /\ match_result_of (H := py_json)
       (Outside true 0 false 0 (Demo.answers CallRaises Demo.bad_status))
       Demo.text Demo.jd
     = PyDict [(py "score", PyInt 0);
               (py "analysis", PyStr (py "AI Parsing Error"))]
  /\ analyze_resume (H := py_json) (Some Demo.client)
       (Outside true 0 false 0 (Demo.answers CallRaises Demo.bad_status))
       (Request (Some Demo.upload) (Some Demo.jd)) Demo.w0
     = (Raise ConnectionError,
        World ∅ [extract_prompt Demo.text; match_prompt Demo.text Demo.jd]).
Proof.
  split; [exact I|]. split; [vm_compute; discriminate|].
  split; [vm_compute; reflexivity|]. split; vm_compute; reflexivity.
Qed.

(** ** Claims about cleaning and parsing the answers *)



(** The same run, evaluated (scenario D of the specification). *)
Example unparseable_answer_run :
  (analyze_resume (H := py_json) (Some Demo.client)
     (Demo.redis_up 0 (Demo.answers Demo.prose Demo.prose))
     (Request (Some Demo.upload) (Some Demo.jd)) Demo.w0).1
  = Ret (Respond 200 (PyDict
      [ (py "resume_text_preview", PyStr Demo.text);
        (py "extracted_info",
         PyDict [(py "raw_text", PyStr (py "Sorry, no JSON today."))]);
        (py "match_result",
         PyDict [(py "score", PyInt 0);
                 (py "analysis", PyStr (py "AI Parsing Error"))]) ])).
Proof. vm_compute. reflexivity. Qed.

(** C4, evaluated on the code.  The model answers prose to both prompts.
    Cleaning and parsing it raises at neither call site: the extraction
    site gives the record with the raw answer, the matching site the
    parsing-error record, as the claim says.  But the client's server does
    not answer the write of step 7, and the request does not complete:
    the handler ends in an uncaught [ConnectionError].  The write is not
    guarded, the defect of C3. *)
Example unparseable_answer_write_raises :
  unparseable (H := py_json) (completion Demo.prose)
  /\ sanitize_extract (H := py_json) (completion Demo.prose)
     = PyDict [(py "raw_text", PyStr (py "Sorry, no JSON today."))]
  /\ sanitize_match (H := py_json) (completion Demo.prose)
     = PyDict [(py "score", PyInt 0);
               (py "analysis", PyStr (py "AI Parsing Error"))]
  /\ analyze_resume (H := py_json) (Some Demo.client)
       (Outside true 0 false 0 (Demo.answers Demo.prose Demo.prose))
       (Request (Some Demo.upload) (Some Demo.jd)) Demo.w0
     = (Raise ConnectionError,
        World ∅ [extract_prompt Demo.text; match_prompt Demo.text Demo.jd]).
Proof.
  split; [exists JSONDecodeError; vm_compute; reflexivity|].
  split; [vm_compute; reflexivity|]. split; vm_compute; reflexivity.
Qed.

(** ** Claims about the cache *)

Section CacheFacts.
Context `{JsonModule}.

Lemma analyze_resume_keyed r_client o rq w resume_text jd_text cache_key :
  keyed rq resume_text jd_text cache_key ->
  analyze_resume r_client o rq w
  = match cache_lookup r_client o cache_key w with
    | (Ret (Some data), w') =>
      (res_bind (json_loads data) (fun v => Ret (jsonify v)), w')
    | (Ret None, w') =>
      analyze_miss r_client o resume_text jd_text cache_key w'
    | (Raise e, w') => (Raise e, w')
    end.
Proof.
  intros (file & Hf & Ht & Hj & Hk). unfold analyze_resume.
  rewrite Hf, Ht, Hj, Hk. unfold bind, lift.
  destruct (cache_lookup r_client o cache_key w) as [[[data|]|e] w']; try reflexivity.
  by destruct (json_loads data).
Qed.

(** With a client and a server that does not answer, the lookup's
    [ConnectionError] leaves the handler. *)
Lemma analyze_resume_get_down c o rq w resume_text jd_text cache_key :
  keyed rq resume_text jd_text cache_key ->
  get_up o = false ->
  analyze_resume (Some c) o rq w = (Raise ConnectionError, w).
Proof.
  intros Hk Hd. rewrite (analyze_resume_keyed _ _ _ _ _ _ _ Hk).
  by rewrite cache_lookup_down.
Qed.

(** So does the [ConnectionError] of the write, after the model calls. *)
Lemma analyze_resume_setex_down c o rq w resume_text jd_text cache_key :
  looked_up (Some c) o rq w resume_text jd_text cache_key None ->
  setex_up o = false ->
  analyze_resume (Some c) o rq w
  = (Raise ConnectionError,
     World (db w) (prompts w ++ prompts_sent resume_text jd_text)).
Proof.
  intros Hl Hd. rewrite (analyze_resume_miss _ _ _ _ _ _ _ Hl), analyze_miss_eq.
  cbv zeta. by rewrite Hd.
Qed.

(** Without a client the server is never asked: the handler does the same
    whether it would answer or not, and no [ConnectionError] is raised. *)
Lemma analyze_resume_no_client o rq w :
  (analyze_resume None o rq w).1 <> Raise ConnectionError.
Proof.
  unfold analyze_resume. destruct (files_resume rq) as [file|]; [|done].
  destruct (extract_text_from_pdf file) as [resume_text|e]; [|done].
  unfold bind, lift.
  destruct (get_cache_key resume_text _) as [cache_key|e] eqn:Hk.
  - rewrite cache_lookup_disabled, analyze_miss_eq. done.
  - unfold get_cache_key, Hashlib.encode_utf8 in Hk.
    destruct (mapM _ _); simpl in Hk; by inversion Hk.
Qed.

End CacheFacts.

(** C3, evaluated on the code.  A client is configured whenever
    [REDIS_HOST] names a host, whether or not the server can be reached;
    with the server unreachable, the handler ends in an uncaught
    [ConnectionError], at the lookup, or (when only the write fails) after
    both model calls were made. *)
Example unreachable_cache_raises :
  init_r_client (Some (py "cache.local"))
    (fun h => Ret (Redis h 6379 [])) = Some Demo.client
  /\ analyze_resume (H := py_json) (Some Demo.client)
       (Demo.redis_down (Demo.answers Demo.jane Demo.scored))
       (Request (Some Demo.upload) (Some Demo.jd)) Demo.w0
     = (Raise ConnectionError, Demo.w0)
  /\ analyze_resume (H := py_json) (Some Demo.client)
       (Outside true 0 false 0 (Demo.answers Demo.jane Demo.scored))
       (Request (Some Demo.upload) (Some Demo.jd)) Demo.w0
     = (Raise ConnectionError,
        World ∅ [extract_prompt Demo.text; match_prompt Demo.text Demo.jd]).
Proof.
  split; [vm_compute; reflexivity|]. split; vm_compute; reflexivity.
Qed.

Section CacheClaims.
Context `{JsonModule}.

(** C2.  A request whose key is in the cache, unexpired, with a non-empty
    value that parses, is answered with the parsed value; the world is
    left as it was, so no prompt is sent.  Hence, after a miss that stored
    its response at the instant [t], the same request looked up before
    [t + 3600] is answered with the same response and sends no prompt,
    whatever the model would answer then; over the two requests the model
    is asked once per prompt.  (The stored text must read back as the
    response: [json_loads] undoes [json_dumps] on it.) *)
Theorem cache_hit_skips_the_model :
  forall c rq resume_text jd_text cache_key,
    keyed rq resume_text jd_text cache_key ->
    (forall o w data expires stored,
        get_up o = true ->
        db w !! cache_key = Some (data, expires) ->
        get_now o < expires ->
        data <> [] ->
        json_loads data = Ret stored ->
        analyze_resume (Some c) o rq w = (Ret (Respond 200 stored), w))
    /\ (forall o1 o2 w,
        cache_lookup (Some c) o1 cache_key w = (Ret None, w) ->
        setex_up o1 = true ->
        get_up o2 = true ->
        get_now o2 < setex_now o1 + 3600 ->
        json_dumps (response_of o1 resume_text jd_text) <> [] ->
        json_loads (json_dumps (response_of o1 resume_text jd_text))
        = Ret (response_of o1 resume_text jd_text) ->
        exists w1,
          analyze_resume (Some c) o1 rq w
          = (Ret (Respond 200 (response_of o1 resume_text jd_text)), w1)
          /\ prompts w1 = prompts w ++ prompts_sent resume_text jd_text
          /\ analyze_resume (Some c) o2 rq w1
             = (Ret (Respond 200 (response_of o1 resume_text jd_text)), w1)).
Proof.
  intros c rq resume_text jd_text cache_key Hk.
  assert (Hit : forall o w data expires stored,
             get_up o = true ->
             db w !! cache_key = Some (data, expires) ->
             get_now o < expires ->
             data <> [] ->
             json_loads data = Ret stored ->
             analyze_resume (Some c) o rq w = (Ret (Respond 200 stored), w)).
  { intros o w data expires stored Hu Hd Hlt Hne Hs.
    rewrite (analyze_resume_keyed _ _ _ _ _ _ _ Hk), cache_lookup_up by done.
    rewrite (redis_GET_live _ _ _ _ _ Hd Hlt).
    destruct data; [done|]. cbn [truthy]. by rewrite Hs. }
  split; [exact Hit|].
  intros o1 o2 w Hmiss Hs1 Hu2 Hlt Hne Hrt.
  eexists. split; [|split].
  - rewrite (analyze_resume_keyed _ _ _ _ _ _ _ Hk), Hmiss, analyze_miss_eq.
    cbv zeta. rewrite Hs1. reflexivity.
  - reflexivity.
  - apply Hit with (data := json_dumps (response_of o1 resume_text jd_text))
                   (expires := setex_now o1 + 3600); try done.
    cbn [db]. unfold redis_SETEX. apply lookup_insert_eq.
Qed.


End CacheClaims.

Lemma cache_hit_skips_the_model_witness :
  exists w1,
    analyze_resume (H := py_json) (Some Demo.client)
      (Demo.redis_up 100 (Demo.answers Demo.jane Demo.scored))
      (Request (Some Demo.upload) (Some Demo.jd)) Demo.w0
    = (Ret (Respond 200
              (response_of (H := py_json)
                 (Demo.redis_up 100 (Demo.answers Demo.jane Demo.scored))
                 Demo.text Demo.jd)), w1)
    /\ prompts w1 = prompts Demo.w0 ++ prompts_sent Demo.text Demo.jd
    /\ analyze_resume (H := py_json) (Some Demo.client)
         (Demo.redis_up 3699 (Demo.answers Demo.prose CallRaises))
         (Request (Some Demo.upload) (Some Demo.jd)) w1
       = (Ret (Respond 200
                 (response_of (H := py_json)
                    (Demo.redis_up 100 (Demo.answers Demo.jane Demo.scored))
                    Demo.text Demo.jd)), w1).
Proof.
  apply (proj2 (cache_hit_skips_the_model (H := py_json) Demo.client
                  (Request (Some Demo.upload) (Some Demo.jd))
                  Demo.text Demo.jd (Demo.key Demo.jd) demo_keyed_jd)
           (Demo.redis_up 100 (Demo.answers Demo.jane Demo.scored))
           (Demo.redis_up 3699 (Demo.answers Demo.prose CallRaises))
           Demo.w0).
  - vm_compute. reflexivity.
  - reflexivity.
  - reflexivity.
  - vm_compute. reflexivity.
  - vm_compute. discriminate.
  - vm_compute. reflexivity.
Defined.

(** The two requests of the witness, evaluated: the second one, an hour
    less a second after the first was stored, gets the first one's
    response although the model would now fail, and sends nothing. *)
Example cache_second_request_run :
  let rq := Request (Some Demo.upload) (Some Demo.jd) in
  let first :=
    analyze_resume (H := py_json) (Some Demo.client)
      (Demo.redis_up 100 (Demo.answers Demo.jane Demo.scored)) rq Demo.w0 in
  let second :=
    analyze_resume (H := py_json) (Some Demo.client)
      (Demo.redis_up 3699 (Demo.answers Demo.prose CallRaises)) rq first.2 in
  first.1
  = Ret (Respond 200 (PyDict
      [ (py "resume_text_preview", PyStr Demo.text);
        (py "extracted_info", PyDict [(py "name", PyStr (py "Jane"))]);
        (py "match_result",
         PyDict [(py "score", PyInt 85); (py "analysis", PyStr (py "fits"))]) ]))
  /\ second.1 = first.1
  /\ second.2 = first.2
  /\ prompts first.2 = [extract_prompt Demo.text; match_prompt Demo.text Demo.jd].
Proof.
  cbv zeta. split; [vm_compute; reflexivity|].
  split; [vm_compute; reflexivity|]. split; vm_compute; reflexivity.
Qed.

(** After the hour the entry has expired and the model is asked again. *)
Example cache_expired_run :
  let rq := Request (Some Demo.upload) (Some Demo.jd) in
  let first :=
    analyze_resume (H := py_json) (Some Demo.client)
      (Demo.redis_up 100 (Demo.answers Demo.jane Demo.scored)) rq Demo.w0 in
  let second :=
    analyze_resume (H := py_json) (Some Demo.client)
      (Demo.redis_up 3700 (Demo.answers Demo.jane Demo.scored)) rq first.2 in
  length (prompts second.2) = 4%nat.
Proof. vm_compute. reflexivity. Qed.


(** ** [str.replace] and the fence markers *)

Section Replace.

Implicit Types (old new s r x : pystr) (c : Z).

Lemma startswith_app old r : startswith old (old ++ r) = true.
Proof. induction old as [|a old IH]; simpl; [done|]. by rewrite Z.eqb_refl. Qed.

Lemma startswith_inv old s :
  startswith old s = true -> s = old ++ drop (length old) s.
Proof.
  revert s; induction old as [|a old IH]; intros [|b s]; simpl; try done.
  intros [Hab Hs]%andb_true_iff. apply Z.eqb_eq in Hab as ->.
  by rewrite <- (IH s Hs).
Qed.

Lemma occurs_spec old s :
  occurs old s = true <-> exists x r, s = x ++ old ++ r.
Proof.
  split.
  - induction s as [|c s IH]; simpl.
    + intros Hs. exists [], []. by destruct old.
    + intros [Hs|Hs]%orb_true_iff.
      * exists [], (drop (length old) (c :: s)). by apply startswith_inv.
      * destruct (IH Hs) as (x & r & ->). by exists (c :: x), r.
  - intros (x & r & ->). induction x as [|c x IH].
    + cbn [app]. pose proof (startswith_app old r) as Hs.
      destruct (old ++ r); [done|]. cbn [occurs]. by rewrite Hs.
    + cbn [app occurs]. rewrite IH. apply orb_true_r.
Qed.

Lemma replace_from_skip old new x s :
  replace_from old new (length x) (x ++ s) = replace_from old new 0 s.
Proof. induction x as [|c x IH]; [done|exact IH]. Qed.

(** The two equations of [replace]: at an occurrence, and elsewhere. *)
Lemma replace_occurrence old new r :
  old <> [] -> replace old new (old ++ r) = new ++ replace old new r.
Proof.
  intros Hne. unfold replace. destruct old as [|a old]; [done|].
  pose proof (startswith_app (a :: old) r) as Hs.
  cbn [app replace_from] in *. rewrite Hs.
  f_equal. cbn [length]. rewrite Nat.sub_1_r. cbn [Nat.pred].
  apply replace_from_skip.
Qed.

Lemma replace_other old new c s :
  startswith old (c :: s) = false ->
  replace old new (c :: s) = c :: replace old new s.
Proof. intros Hs. unfold replace. cbn [replace_from]. by rewrite Hs. Qed.

Lemma replace_absent old new s : occurs old s = false -> replace old new s = s.
Proof.
  induction s as [|c s IH]; [done|]. cbn [occurs].
  intros [Hs Ho]%orb_false_iff. rewrite replace_other by done. by rewrite IH.
Qed.

Lemma FENCE_eq : FENCE = [96; 96; 96].
Proof. reflexivity. Qed.

Lemma startswith_FENCE_ticks s : startswith FENCE s = true <-> (3 <= ticks s)%nat.
Proof.
  rewrite FENCE_eq.
  destruct s as [|a [|b [|c s]]]; cbn [startswith ticks];
    rewrite ?(Z.eqb_sym 96);
    repeat match goal with
           | |- context [?x =? 96] => destruct (x =? 96)
           end; cbn [andb]; split; (lia || done).
Qed.

Lemma startswith_FENCE_JSON s :
  startswith FENCE_JSON s = true -> startswith FENCE s = true.
Proof.
  change FENCE_JSON with ([96; 96; 96] ++ py "json"). rewrite FENCE_eq.
  destruct s as [|a [|b [|c s]]]; cbn [startswith app]; try done.
  rewrite ?(Z.eqb_sym 96).
  repeat match goal with
         | |- context [?x =? 96] => destruct (x =? 96)
         end; cbn [andb]; done.
Qed.

Lemma occurs_FENCE_JSON s :
  occurs FENCE s = false -> occurs FENCE_JSON s = false.
Proof.
  induction s as [|c s IH]; [done|]. cbn [occurs].
  intros [Hs Ho]%orb_false_iff. rewrite (IH Ho), orb_false_r.
  destruct (startswith FENCE_JSON (c :: s)) eqn:E; [|done].
  by rewrite (startswith_FENCE_JSON _ E) in Hs.
Qed.

Lemma ticks_cons_le c s r :
  (ticks r <= ticks s)%nat -> (ticks (c :: r) <= ticks (c :: s))%nat.
Proof. simpl. destruct (c =? 96); lia. Qed.

(** Removing the fences leaves no fence: of a run of backquotes, fewer
    than three stay, and two runs never join. *)
Lemma replace_FENCE_bounded n :
  forall s, (length s <= n)%nat ->
    occurs FENCE (replace FENCE [] s) = false
    /\ (ticks (replace FENCE [] s) <= ticks s)%nat.
Proof.
  induction n as [|n IH]; intros s Hn.
  - destruct s; [|simpl in Hn; lia]. by split.
  - destruct s as [|c s]; [by split|].
    destruct (startswith FENCE (c :: s)) eqn:Hs.
    + rewrite (startswith_inv _ _ Hs).
      rewrite replace_occurrence by done. cbn [app].
      set (r := drop (length FENCE) (c :: s)).
      assert (Hr : (length r <= n)%nat).
      { subst r. rewrite length_drop. rewrite FENCE_eq. simpl in *. lia. }
      destruct (IH r Hr) as [IH1 IH2]. split; [done|].
      assert (Ht : ticks (FENCE ++ r) = S (S (S (ticks r)))) by reflexivity.
      lia.
    + rewrite replace_other by done.
      destruct (IH s ltac:(simpl in Hn; lia)) as [IH1 IH2].
      pose proof (ticks_cons_le c s _ IH2) as Ht. split; [|done].
      cbn [occurs]. rewrite IH1, orb_false_r.
      destruct (startswith FENCE (c :: replace FENCE [] s)) eqn:E; [|done].
      apply startswith_FENCE_ticks in E.
      assert (~ (3 <= ticks (c :: s))%nat).
      { intros H3. apply startswith_FENCE_ticks in H3. congruence. }
      lia.
Qed.

Lemma replace_FENCE_clean s : occurs FENCE (replace FENCE [] s) = false.
Proof. by apply (replace_FENCE_bounded (length s)). Qed.

End Replace.

(** C5, as the code has it.  The answer is cleaned by removing the fence
    markers wherever they stand: no fence is left in the cleaned text, and a
    text without fences is left as it is.  Whatever JSON value the cleaned
    text parses to is returned, at both call sites, with no check of its
    shape; when it does not parse, the call site's fallback is returned. *)
Theorem sanitize_strips_everywhere_checks_no_schema `{JsonModule} :
  forall raw : pystr,
    exists cleaned,
      strip_fences (Some raw) = Ret cleaned
      /\ cleaned = replace FENCE [] (replace FENCE_JSON [] raw)
      /\ occurs FENCE cleaned = false
      /\ (occurs FENCE raw = false -> cleaned = raw)
      /\ (forall v, json_loads cleaned = Ret v ->
           sanitize_extract (Some raw) = v /\ sanitize_match (Some raw) = v)
      /\ (forall e, json_loads cleaned = Raise e ->
           sanitize_extract (Some raw) = PyDict [(py "raw_text", PyStr raw)]
           /\ sanitize_match (Some raw)
              = PyDict [(py "score", PyInt 0);
                        (py "analysis", PyStr (py "AI Parsing Error"))]).
Proof.
  intros raw. eexists. split; [reflexivity|]. split; [reflexivity|].
  split; [apply replace_FENCE_clean|]. split; [|split].
  - intros Hno.
    rewrite (replace_absent FENCE_JSON) by (by apply occurs_FENCE_JSON).
    by apply replace_absent.
  - intros v Hv. unfold sanitize_extract, sanitize_match.
    cbn [strip_fences res_bind]. by rewrite Hv.
  - intros e He. unfold sanitize_extract, sanitize_match.
    cbn [strip_fences res_bind]. by rewrite He.
Qed.

(** C5, as stated, fails.  A fence inside a JSON string is removed, so the
    payload is not returned unaltered; a fence in the middle of the text is
    removed, not only one at either end; and valid JSON that is no record
    of the expected shape is returned as it parses, not replaced by the
    fallback. *)
Lemma sanitize_alters_payload_and_checks_no_schema :
  Json.loads (pyq "{'a': '```'}") = Ret (PyDict [(py "a", PyStr (py "```"))])
  /\ sanitize_extract (H := py_json) (Some (pyq "{'a': '```'}"))
     = PyDict [(py "a", PyStr [])]
  /\ strip_fences (Some (pyq "{'a```json': 1}")) = Ret (pyq "{'a': 1}")
  /\ sanitize_extract (H := py_json) (Some (py "42")) = PyInt 42
  /\ sanitize_match (H := py_json) (Some (py "[1, 2]")) = PyList [PyInt 1; PyInt 2].
Proof.
  split; [vm_compute; reflexivity|]. split; [vm_compute; reflexivity|].
  split; [vm_compute; reflexivity|]. split; vm_compute; reflexivity.
Qed.

(** Scenario C of the specification: fenced JSON is parsed. *)
Example sanitize_fenced_json :
  sanitize_extract (H := py_json) (Some (pyq "```json {'name':'Jane'} ```"))
  = PyDict [(py "name", PyStr (py "Jane"))].
Proof. vm_compute. reflexivity. Qed.


(** ** Further properties of the handler *)

Section Further.
Context `{JsonModule}.

(** X1.  Without a Redis client (the default configuration) no request ends in a
    [ConnectionError], whatever the server does. *)
Theorem no_client_no_connection_error :
  forall o rq w, (analyze_resume None o rq w).1 <> Raise ConnectionError.
Proof. apply analyze_resume_no_client. Qed.

(** X3.  No request sends more than two prompts. *)
Theorem at_most_two_prompts :
  forall r_client o rq w,
    exists sent,
      prompts (analyze_resume r_client o rq w).2 = prompts w ++ sent
      /\ (length sent <= 2)%nat.
Proof.
  intros r_client o rq w.
  destruct (analyze_resume_prompts r_client o rq w) as (sent & Hp & Hs).
  exists sent. split; [exact Hp|].
  destruct Hs as [->|(t & k & _ & ->)]; [simpl; lia|].
  unfold prompts_sent. destruct (truthy _); simpl; lia.
Qed.

(** X4.  After a miss that is stored at the instant [t], the entry is served
    until [t + 3600] and not from then on. *)
Theorem stored_for_one_hour :
  forall c o rq w resume_text jd_text cache_key,
    looked_up (Some c) o rq w resume_text jd_text cache_key None ->
    setex_up o = true ->
    forall now,
      redis_GET (db (analyze_resume (Some c) o rq w).2) now cache_key
      = if now <? setex_now o + 3600
        then Some (json_dumps (response_of o resume_text jd_text))
        else None.
Proof.
  intros c o rq w resume_text jd_text cache_key Hl Hu now.
  rewrite (analyze_resume_miss _ _ _ _ _ _ _ Hl), analyze_miss_eq. cbv zeta.
  rewrite Hu. cbn [snd db]. unfold redis_GET, redis_SETEX.
  by rewrite lookup_insert_eq.
Qed.

End Further.

Lemma stored_for_one_hour_witness :
  redis_GET
    (db (analyze_resume (H := py_json) (Some Demo.client)
           (Demo.redis_up 100 (Demo.answers Demo.jane Demo.scored))
           (Request (Some Demo.upload) (Some Demo.jd)) Demo.w0).2)
    3700 (Demo.key Demo.jd)
  = if 3700 <? setex_now (Demo.redis_up 100 (Demo.answers Demo.jane Demo.scored))
               + 3600
    then Some (json_dumps (JsonModule := py_json)
                 (response_of (H := py_json)
                    (Demo.redis_up 100 (Demo.answers Demo.jane Demo.scored))
                    Demo.text Demo.jd))
    else None.
Proof.
  exact (stored_for_one_hour (H := py_json) Demo.client _ _ Demo.w0
           Demo.text Demo.jd (Demo.key Demo.jd)
           (demo_miss_jd (Demo.answers Demo.jane Demo.scored) 100) eq_refl 3700).
Defined.

(** ** Examples *)

Example normalize_example :
  normalize (py "  John   Doe
	Go,  Python
") = py "John Doe Go, Python".
Proof. vm_compute. reflexivity. Qed.

Example extract_text_example : extract_text_from_pdf Demo.upload = Ret Demo.text.
Proof. vm_compute. reflexivity. Qed.

Example init_r_client_default :
  init_r_client None (fun h => Ret (Redis h 6379 [])) = None.
Proof. reflexivity. Qed.

(** ** The text of a document *)


Section Pages.

Implicit Types (s t w : pystr) (c : Z) (ws : list pystr).

Lemma words_from_sep w t c rest :
  isspace c = true ->
  words_from w (t ++ c :: rest) = words_from w t ++ words_from [] rest.
Proof.
  intros Hc. revert w. induction t as [|d t IH]; intros w.
  - cbn [app words_from]. rewrite Hc. by destruct w.
  - cbn [app words_from]. destruct (isspace d).
    + rewrite IH. by destruct w.
    + apply IH.
Qed.

Lemma read_pages_texts (texts : list (option pystr)) :
  forall acc, exists raw,
    read_pages acc (Ret <$> texts) = Ret (acc ++ raw)
    /\ words raw = page_words texts.
Proof.
  induction texts as [|ot texts IH]; intros acc.
  - exists []. by rewrite app_nil_r.
  - cbn [fmap list_fmap read_pages]. destruct ot as [[|c t]|].
    + destruct (IH acc) as (raw & Hr & Hw). exists raw. split; [exact Hr|].
      rewrite Hw. reflexivity.
    + cbn [truthy]. destruct (IH (acc ++ (c :: t) ++ [10])) as (raw & Hr & Hw).
      exists ((c :: t) ++ 10 :: raw). split.
      * change (py _) with [10]. rewrite Hr. f_equal.
        by rewrite <- !app_assoc.
      * unfold words. rewrite words_from_sep by reflexivity.
        fold (words raw). rewrite Hw. reflexivity.
    + destruct (IH acc) as (raw & Hr & Hw). exists raw. split; [exact Hr|].
      rewrite Hw. reflexivity.
Qed.

Lemma page_words_are_words (texts : list (option pystr)) :
  Forall is_word (page_words texts).
Proof.
  unfold page_words. induction texts as [|t texts IH]; [constructor|].
  cbn [mbind list_bind]. apply Forall_app. split; [|exact IH].
  apply words_from_are_words. constructor.
Qed.

Lemma extract_text_normalized file text :
  extract_text_from_pdf file = Ret text ->
  exists ws, Forall is_word ws /\ text = join_sp ws.
Proof.
  unfold extract_text_from_pdf. destruct file as [pages|e]; [|done].
  cbn [res_bind]. destruct (read_pages [] pages) as [raw|e]; [|done].
  cbn [res_bind]. intros [= <-]. exists (words raw). split.
  - apply words_from_are_words. constructor.
  - apply normalize_collapse.
Qed.

Lemma join_sp_head ws c :
  Forall is_word ws -> head (join_sp ws) = Some c -> isspace c = false.
Proof.
  destruct 1 as [|w ws [Hne Hw] Hws]; [done|].
  destruct w as [|d w]; [done|].
  assert (head (join_sp ((d :: w) :: ws)) = Some d) as ->
    by (destruct ws; reflexivity).
  intros [= <-]. by inversion Hw.
Qed.

Lemma join_sp_last ws c :
  Forall is_word ws -> last (join_sp ws) = Some c -> isspace c = false.
Proof.
  induction 1 as [|w ws [Hne Hw] Hws IH]; [done|].
  destruct ws as [|w' ws].
  - cbn [join_sp]. intros Hl. destruct (last_Some w c) as [(l' & ->) _]; [done|].
    apply Forall_app in Hw as [_ Hc]. by inversion Hc.
  - rewrite join_sp_cons by done. intros Hl. apply IH.
    inversion Hws as [|? ? [Hne' _] _]; subst.
    assert (join_sp (w' :: ws) <> []) as Hj by (by apply join_sp_ne).
    change (w ++ SPACE :: join_sp (w' :: ws))
      with (w ++ [SPACE] ++ join_sp (w' :: ws)) in Hl.
    rewrite !last_app in Hl.
    destruct (last (join_sp (w' :: ws))) eqn:E; [done|].
    by apply last_None in E.
Qed.

Lemma join_sp_spaces ws c :
  Forall is_word ws -> c ∈ join_sp ws -> isspace c = true -> c = SPACE.
Proof.
  induction 1 as [|w ws [Hne Hw] Hws IH]; [by intros ?%elem_of_nil|].
  destruct ws as [|w' ws].
  - cbn [join_sp]. intros Hin Hc.
    unfold nonspace in Hw. rewrite Forall_forall in Hw.
    specialize (Hw c Hin). congruence.
  - rewrite join_sp_cons by done. intros Hin Hc.
    apply elem_of_app in Hin as [Hin|Hin].
    + unfold nonspace in Hw. rewrite Forall_forall in Hw.
      specialize (Hw c Hin). congruence.
    + apply elem_of_cons in Hin as [->|Hin]; [done|]. by apply IH.
Qed.

Lemma occurs_after_word p w t c :
  nonspace w -> isspace c = true ->
  occurs (c :: p) (w ++ t) = occurs (c :: p) t.
Proof.
  intros Hw Hc. induction Hw as [|d w Hd Hw IH]; [done|].
  cbn [app occurs startswith]. rewrite IH.
  destruct (Z.eqb_spec c d) as [->|_]; [congruence|done].
Qed.

Lemma join_sp_single_spaces ws :
  Forall is_word ws -> occurs [SPACE; SPACE] (join_sp ws) = false.
Proof.
  induction 1 as [|w ws [Hne Hw] Hws IH]; [done|].
  destruct ws as [|w' ws].
  - cbn [join_sp]. rewrite <- (app_nil_r w).
    by rewrite occurs_after_word by done.
  - rewrite join_sp_cons by done. rewrite occurs_after_word by done.
    cbn [occurs]. rewrite IH, orb_false_r.
    cbn [startswith]. rewrite Z.eqb_refl. cbn [andb].
    destruct (join_sp (w' :: ws)) as [|d r] eqn:E; [done|].
    destruct (Z.eqb_spec SPACE d) as [<-|_]; [|done].
    assert (isspace SPACE = false) as Hs; [|done].
    apply (join_sp_head (w' :: ws)); [done|]. by rewrite E.
Qed.

Lemma normalize_join_sp ws : Forall is_word ws -> normalize (join_sp ws) = join_sp ws.
Proof.
  intros Hws. rewrite normalize_collapse. unfold collapse_and_trim.
  by rewrite words_join.
Qed.

Lemma join_words_length s :
  forall w, (length (join_sp (words_from w s)) <= length w + length s)%nat.
Proof.
  induction s as [|c s IH]; intros w.
  - cbn [words_from]. destruct w; cbn; lia.
  - cbn [words_from]. destruct (isspace c).
    + destruct w as [|d w]; [specialize (IH []); cbn in *; lia|].
      specialize (IH []).
      destruct (words_from [] s) as [|w' ws] eqn:E; [cbn in *; lia|].
      rewrite join_sp_cons by done. rewrite length_app. cbn [length] in *. lia.
    + specialize (IH (w ++ [c])). rewrite length_app in IH. cbn [length] in *. lia.
Qed.

Lemma filter_join_words s :
  forall w, nonspace w ->
    filter (fun c => isspace c = false) (join_sp (words_from w s))
    = w ++ filter (fun c => isspace c = false) s.
Proof.
  assert (Hfw : forall w, nonspace w -> filter (fun c => isspace c = false) w = w).
  { intros w Hw. induction Hw as [|d w Hd Hw IH]; [done|].
    rewrite filter_cons_True by done. by rewrite IH. }
  induction s as [|c s IH]; intros w Hw.
  - cbn [words_from]. rewrite app_nil_r. destruct w; [done|]. by apply Hfw.
  - cbn [words_from]. destruct (isspace c) eqn:Hc.
    + rewrite filter_cons_False by congruence.
      specialize (IH [] ltac:(constructor)). cbn [app] in IH.
      destruct w as [|d w]; [by rewrite IH|].
      destruct (words_from [] s) as [|w' ws] eqn:E.
      * cbn [join_sp] in *. rewrite <- IH, app_nil_r. by apply Hfw.
      * rewrite join_sp_cons by done. rewrite filter_app, Hfw by done.
        rewrite filter_cons_False by (cbn; congruence). by rewrite IH.
    + rewrite filter_cons_True by done.
      rewrite IH by (apply Forall_app; split; [done|by constructor]).
      by rewrite <- app_assoc.
Qed.

End Pages.

(** X5.  The text of a document whose pages are all read is the words of
    its pages, in page order, joined by single spaces.  A page without
    text adds nothing, and the end of a page ends a word: the last word
    of a page and the first of the next one are never run together. *)
Theorem extracted_text_is_the_words_of_the_pages :
  forall texts : list (option pystr),
    extract_text_from_pdf (Ret (Ret <$> texts)) = Ret (join_sp (page_words texts))
    /\ Forall is_word (page_words texts).
Proof.
  intros texts. split; [|apply page_words_are_words].
  unfold extract_text_from_pdf. cbn [res_bind].
  destruct (read_pages_texts texts []) as (raw & -> & Hw). cbn [res_bind app].
  by rewrite normalize_collapse, <- Hw.
Qed.

(** X6.  Whatever the document, the text [extract_text_from_pdf] returns is
    in normal form: cleaning it again changes nothing, it neither begins nor
    ends with whitespace, its only whitespace character is the space, and
    no two spaces are adjacent. *)
Theorem extracted_text_is_normal :
  forall file text,
    extract_text_from_pdf file = Ret text ->
    normalize text = text
    /\ (forall c, head text = Some c -> isspace c = false)
    /\ (forall c, last text = Some c -> isspace c = false)
    /\ (forall c, c ∈ text -> isspace c = true -> c = SPACE)
    /\ occurs [SPACE; SPACE] text = false.
Proof.
  intros file text (ws & Hws & ->)%extract_text_normalized.
  split; [by apply normalize_join_sp|]. split; [intros c; by apply join_sp_head|].
  split; [intros c; by apply join_sp_last|].
  split; [intros c; by apply join_sp_spaces|]. by apply join_sp_single_spaces.
Qed.

(** X7.  The cleaning step only touches whitespace: the characters that are
    not whitespace come out all, unchanged and in their order, and the
    cleaned text is never longer than the raw one. *)
Theorem normalize_keeps_the_visible_characters :
  forall s : pystr,
    filter (fun c => isspace c = false) (normalize s)
    = filter (fun c => isspace c = false) s
    /\ (length (normalize s) <= length s)%nat.
Proof.
  intros s. rewrite normalize_collapse. unfold collapse_and_trim, words. split.
  - by rewrite filter_join_words by constructor.
  - apply (join_words_length s []).
Qed.

Lemma extracted_text_is_normal_witness :
  normalize Demo.text = Demo.text
  /\ (forall c, head Demo.text = Some c -> isspace c = false)
  /\ (forall c, last Demo.text = Some c -> isspace c = false)
  /\ (forall c, c ∈ Demo.text -> isspace c = true -> c = SPACE)
  /\ occurs [SPACE; SPACE] Demo.text = false.
Proof.
  apply (extracted_text_is_normal Demo.upload Demo.text). reflexivity.
Defined.

(** ** Failing uploads, the key's format, start-up and fences *)


Section Upload.

Lemma read_pages_raises (pages : list pdf_page) e :
  forall acc,
    read_pages acc pages = Raise e
    <-> exists before after,
          pages = before ++ Raise e :: after /\ Forall returns before.
Proof.
  induction pages as [|p pages IH]; intros acc.
  - split; [done|]. intros (before & after & Hp & _). by destruct before.
  - cbn [read_pages]. destruct p as [ot|e'].
    + assert (forall acc',
                read_pages acc' pages = Raise e
                <-> exists before after,
                      Ret ot :: pages = before ++ Raise e :: after
                      /\ Forall returns before) as Hstep.
      { intros acc'. rewrite IH. split.
        - intros (before & after & -> & Hb). exists (Ret ot :: before), after.
          split; [done|]. constructor; [by exists ot|done].
        - intros (before & after & Hp & Hb). destruct before as [|b before].
          + by inversion Hp.
          + inversion Hp; subst. exists before, after. split; [done|].
            by inversion Hb. }
      destruct ot as [t|]; [destruct (truthy t)|]; apply Hstep.
    + split.
      * intros [= ->]. exists [], pages. split; [done|constructor].
      * intros (before & after & Hp & Hb). destruct before as [|b before].
        -- by inversion Hp.
        -- inversion Hp; subst. inversion Hb as [|? ? [t Ht] _]. done.
Qed.

Lemma extract_text_raises file e :
  extract_text_from_pdf file = Raise e
  <-> file = Raise e
      \/ exists before after,
           file = Ret (before ++ Raise e :: after) /\ Forall returns before.
Proof.
  unfold extract_text_from_pdf. destruct file as [pages|e']; cbn [res_bind].
  - destruct (read_pages [] pages) as [raw|e'] eqn:E; cbn [res_bind].
    + split; [done|]. intros [|(before & after & [= ->] & Hb)]; [done|].
      assert (read_pages [] (before ++ Raise e :: after) = Raise e) as E'
        by (apply read_pages_raises; eauto).
      congruence.
    + split.
      * intros [= ->]. right. apply read_pages_raises in E as (b & a & -> & Hb).
        eauto.
      * intros [|(before & after & [= ->] & Hb)]; [done|].
        assert (read_pages [] (before ++ Raise e :: after) = Raise e) as E'
          by (apply read_pages_raises; eauto).
        congruence.
  - split; [intros [= ->]; by left|].
    intros [[= ->]|(? & ? & ? & _)]; done.
Qed.

End Upload.

Section Key.

Lemma encode_char_is_Some c :
  is_code_point c -> (is_Some (Hashlib.encode_char c) <-> ~ is_surrogate c).
Proof.
  unfold is_code_point, is_surrogate, Hashlib.encode_char. intros Hc.
  destruct (Z.ltb_spec c 0); [lia|].
  destruct (Z.ltb_spec c 0x80); [split; [lia|by eauto]|].
  destruct (Z.ltb_spec c 0x800); [split; [lia|by eauto]|].
  destruct (Z.ltb_spec c 0x10000).
  - destruct (Z.leb_spec 0xD800 c); cbn [andb].
    + destruct (Z.leb_spec c 0xDFFF).
      * split; [by intros [? ?]|lia].
      * split; [lia|by eauto].
    + split; [lia|by eauto].
  - destruct (Z.ltb_spec c 0x110000); [split; [lia|by eauto]|lia].
Qed.

Lemma encode_utf8_surrogate s :
  Forall is_code_point s ->
  (Exists is_surrogate s /\ Hashlib.encode_utf8 s = Raise UnicodeEncodeError)
  \/ (~ Exists is_surrogate s /\ exists bs, Hashlib.encode_utf8 s = Ret bs).
Proof.
  intros Hs. unfold Hashlib.encode_utf8.
  destruct (mapM Hashlib.encode_char s) as [bss|] eqn:E.
  - right. split; [|by eauto].
    assert (is_Some (mapM Hashlib.encode_char s)) as Hm by (by rewrite E).
    apply mapM_is_Some in Hm. rewrite Exists_exists. intros (c & Hin & Hc).
    rewrite Forall_forall in Hs, Hm.
    by apply (encode_char_is_Some c (Hs c Hin)) in Hc; [|apply Hm].
  - left. split; [|done].
    assert (~ Forall (is_Some ∘ Hashlib.encode_char) s) as Hn.
    { intros Hf%mapM_is_Some. rewrite E in Hf. by destruct Hf. }
    apply not_Forall_Exists in Hn; [|apply _].
    rewrite Exists_exists in Hn |- *. destruct Hn as (c & Hin & Hc).
    exists c. split; [done|]. rewrite Forall_forall in Hs.
    destruct (decide (0xD800 <= c <= 0xDFFF)) as [|Hns]; [done|].
    apply (encode_char_is_Some c (Hs c Hin)) in Hns. by destruct Hc.
Qed.

Lemma length_hexlify bs : length (Hashlib.hexlify bs) = (2 * length bs)%nat.
Proof.
  unfold Hashlib.hexlify. induction bs as [|b bs IH]; [done|].
  cbn [mbind list_bind app length] in *. rewrite IH. lia.
Qed.

Lemma length_bytes_le n x : length (Hashlib.bytes_le n x) = n.
Proof. unfold Hashlib.bytes_le. by rewrite length_fmap, length_seq. Qed.

Lemma length_md5 msg : length (Hashlib.md5 msg) = 16%nat.
Proof.
  unfold Hashlib.md5. cbv zeta.
  destruct (Hashlib.md5_blocks _ _ _) as [[[a b] c] d].
  by rewrite !length_app, !length_bytes_le.
Qed.

Lemma hex_digit_char d : 0 <= d < 16 -> is_hex_char (Hashlib.hex_digit d).
Proof.
  unfold is_hex_char, Hashlib.hex_digit. intros Hd.
  destruct (Z.ltb_spec d 10); lia.
Qed.

Lemma hexlify_chars bs : Forall is_byte bs -> Forall is_hex_char (Hashlib.hexlify bs).
Proof.
  unfold Hashlib.hexlify. induction 1 as [|b bs Hb Hbs IH]; [constructor|].
  cbn [mbind list_bind app]. unfold is_byte in Hb.
  constructor; [|constructor; [|exact IH]]; apply hex_digit_char.
  - rewrite Z.shiftr_div_pow2 by lia. change (2 ^ 4) with 16. dlia.
  - change 0xF with (2 ^ 4 - 1). rewrite land_mask by lia. change (2 ^ 4) with 16. dlia.
Qed.

End Key.

Section Startup.

Lemma init_r_client_None environ ctor :
  init_r_client environ ctor = None
  <-> environ = None \/ environ = Some [] \/ environ = Some (py "None")
      \/ exists h e, environ = Some h /\ ctor h = Raise e.
Proof.
  unfold init_r_client, REDIS_HOST. destruct environ as [h|]; cbn [from_option id].
  - destruct h as [|c h]; cbn [truthy andb].
    + split; [intros _; right; by left|done].
    + destruct (bool_decide_reflect (c :: h = py "None")) as [->|Hne]; cbn [negb andb].
      * split; [intros _; right; right; by left|done].
      * destruct (ctor (c :: h)) as [cl|e] eqn:E.
        -- split; [done|]. intros [|[|[Hn|(h' & e & [= <-] & He)]]]; try done.
           ++ destruct (Hne (f_equal (default []) Hn)).
           ++ congruence.
        -- split; [|done]. intros _. right; right; right. eauto.
  - split; [intros _; by left|done].
Qed.

End Startup.

Section Fences.

Lemma replace_from_sublist old s :
  forall skip, replace_from old [] skip s `sublist_of` s.
Proof.
  induction s as [|c s IH]; intros skip; [done|].
  cbn [replace_from]. destruct skip as [|skip].
  - destruct (startswith old (c :: s)).
    + cbn [app]. by apply sublist_cons.
    + by apply sublist_skip.
  - by apply sublist_cons.
Qed.

End Fences.

(** X8.  On strings of code points [get_cache_key] either returns a key of
    32 characters, each a digit or a letter from a to f, or raises
    [UnicodeEncodeError]; it raises exactly when the document text or the
    job description holds a surrogate code point. *)
Theorem get_cache_key_is_a_digest_or_raises :
  forall text jd_text : pystr,
    Forall is_code_point (text ++ jd_text) ->
    (Exists is_surrogate (text ++ jd_text)
     /\ get_cache_key text jd_text = Raise UnicodeEncodeError)
    \/ (~ Exists is_surrogate (text ++ jd_text)
        /\ exists cache_key,
            get_cache_key text jd_text = Ret cache_key
            /\ length cache_key = 32%nat
            /\ Forall is_hex_char cache_key).
Proof.
  intros text jd_text Hcp. unfold get_cache_key. cbv zeta.
  destruct (encode_utf8_surrogate _ Hcp) as [[Hs ->]|[Hs (bs & ->)]].
  - by left.
  - right. split; [done|]. eexists. split; [reflexivity|]. split.
    + by rewrite length_hexlify, length_md5.
    + apply hexlify_chars, md5_bytes.
Qed.

Lemma get_cache_key_is_a_digest_or_raises_witness :
  (Exists is_surrogate (py "ab" ++ py "c")
   /\ get_cache_key (py "ab") (py "c") = Raise UnicodeEncodeError)
  \/ (~ Exists is_surrogate (py "ab" ++ py "c")
      /\ exists cache_key,
          get_cache_key (py "ab") (py "c") = Ret cache_key
          /\ length cache_key = 32%nat
          /\ Forall is_hex_char cache_key).
Proof.
  apply (get_cache_key_is_a_digest_or_raises (py "ab") (py "c")).
  change (Forall is_code_point [97; 98; 99]).
  repeat (constructor; [unfold is_code_point; lia|]). constructor.
Defined.

(** X9.  At start-up the client is left at [None], and so the cache
    disabled, exactly when [REDIS_HOST] is not set, is the empty string or
    is the string [None], or when the constructor raises; otherwise the
    client is the one the constructor returned for that host. *)
Theorem cache_is_disabled_exactly_when :
  forall (environ : option pystr) (ctor : pystr -> res redis_client),
    (init_r_client environ ctor = None
     <-> environ = None \/ environ = Some [] \/ environ = Some (py "None")
         \/ exists h e, environ = Some h /\ ctor h = Raise e)
    /\ (forall c, init_r_client environ ctor = Some c ->
          exists h, environ = Some h /\ ctor h = Ret c).
Proof.
  intros environ ctor. split; [apply init_r_client_None|].
  unfold init_r_client, REDIS_HOST. intros c.
  destruct environ as [h|]; cbn [from_option id]; [|done].
  destruct (truthy h && _); [|done].
  destruct (ctor h) as [c'|e] eqn:E; [|done]. intros [= <-]. eauto.
Qed.

(** X10.  Cleaning a model answer only deletes characters: what is left is
    a subsequence of the answer.  Cleaning the result again changes
    nothing. *)
Theorem strip_fences_only_removes :
  forall raw : pystr,
    exists cleaned,
      strip_fences (Some raw) = Ret cleaned
      /\ cleaned `sublist_of` raw
      /\ strip_fences (Some cleaned) = Ret cleaned.
Proof.
  intros raw. eexists. split; [reflexivity|]. split.
  - etrans; apply replace_from_sublist.
  - cbn [strip_fences]. f_equal.
    pose proof (replace_FENCE_clean (replace FENCE_JSON [] raw)) as Hc.
    rewrite (replace_absent FENCE_JSON) by (by apply occurs_FENCE_JSON).
    by apply replace_absent.
Qed.

(** ** Requests and the store *)

Section Requests.
Context `{JsonModule}.


(** What the lookup of a client whose server answers finds. *)
Lemma cache_lookup_miss_iff c o cache_key w :
  get_up o = true ->
  (cache_lookup (Some c) o cache_key w = (Ret None, w)
   <-> db w !! cache_key = None
       \/ exists value expires,
            db w !! cache_key = Some (value, expires)
            /\ (value = [] \/ expires <= get_now o)).
Proof.
  intros Hu. rewrite cache_lookup_up by done. unfold redis_GET.
  destruct (db w !! cache_key) as [[value expires]|] eqn:E.
  - destruct (Z.ltb_spec (get_now o) expires) as [Hlt|Hge].
    + destruct value as [|d value]; cbn [truthy].
      * split; [intros _; right; eauto|done].
      * split; [done|]. intros [|(v & x & [= <- <-] & [|])]; [done|done|lia].
    + split; [intros _; right; eauto|done].
  - split; [by left|done].
Qed.

Lemma analyze_resume_stored c o rq w resume_text jd_text cache_key :
  keyed rq resume_text jd_text cache_key ->
  cache_lookup (Some c) o cache_key w = (Ret None, w) ->
  setex_up o = true ->
  analyze_resume (Some c) o rq w
  = (Ret (Respond 200 (response_of o resume_text jd_text)),
     World (<[cache_key := (json_dumps (response_of o resume_text jd_text),
                            setex_now o + 3600)]> (db w))
       (prompts w ++ prompts_sent resume_text jd_text)).
Proof.
  intros Hk Hm Hs.
  rewrite (analyze_resume_keyed _ _ _ _ _ _ _ Hk), Hm, analyze_miss_eq.
  cbv zeta. by rewrite Hs.
Qed.

Lemma analyze_resume_hit c o rq w resume_text jd_text cache_key data expires :
  keyed rq resume_text jd_text cache_key ->
  get_up o = true ->
  db w !! cache_key = Some (data, expires) ->
  get_now o < expires ->
  data <> [] ->
  analyze_resume (Some c) o rq w
  = (res_bind (json_loads data) (fun v => Ret (jsonify v)), w).
Proof.
  intros Hk Hu Hd Hlt Hne.
  rewrite (analyze_resume_keyed _ _ _ _ _ _ _ Hk), cache_lookup_up by done.
  rewrite (redis_GET_live _ _ _ _ _ Hd Hlt). by destruct data.
Qed.

End Requests.

(** X2.  A request without the file field is answered 400, and one whose
    document cannot be read is answered 500 with the exception's text; in
    both cases nothing is looked up, sent or stored.  Reading fails with
    [e] exactly when opening the document raises [e], or some page raises
    [e] and every page before it was read: the first failure decides. *)
Theorem bad_upload_is_answered_at_once `{JsonModule} :
  forall r_client o jd w,
    analyze_resume r_client o (Request None jd) w
    = (Ret (Respond 400
              (PyDict [(py "error", PyStr (py "No resume file provided"))])), w)
    /\ (forall file e,
          extract_text_from_pdf file = Raise e ->
          analyze_resume r_client o (Request (Some file) jd) w
          = (Ret (Respond 500
                    (PyDict [(py "error",
                              PyStr (py "Failed to parse PDF: " ++ exn_str e))])),
             w))
    /\ (forall file e,
          extract_text_from_pdf file = Raise e
          <-> file = Raise e
              \/ exists before after,
                   file = Ret (before ++ Raise e :: after)
                   /\ Forall returns before).
Proof.
  intros r_client o jd w. split; [reflexivity|]. split.
  - intros file e He. unfold analyze_resume. cbn [files_resume]. by rewrite He.
  - apply extract_text_raises.
Qed.

(** X11.  A request leaves the Redis data as they were, or it is a miss
    with a client whose write succeeds, and then the only change is one
    entry, under the request's own key: the serialized response, expiring
    3600 seconds after the write.  No request deletes an entry or touches
    the entry of another key. *)
Theorem handler_writes_at_most_its_own_key `{JsonModule} :
  forall r_client o rq w,
    db (analyze_resume r_client o rq w).2 = db w
    \/ exists c resume_text jd_text cache_key,
         r_client = Some c
         /\ looked_up r_client o rq w resume_text jd_text cache_key None
         /\ setex_up o = true
         /\ db (analyze_resume r_client o rq w).2
            = <[cache_key := (json_dumps (response_of o resume_text jd_text),
                              setex_now o + 3600)]> (db w).
Proof.
  intros r_client o rq w. unfold analyze_resume.
  destruct (files_resume rq) as [file|] eqn:Hf; [|by left].
  destruct (extract_text_from_pdf file) as [resume_text|e] eqn:Ht; [|by left].
  unfold bind, lift.
  destruct (get_cache_key resume_text _) as [cache_key|e] eqn:Hk; [|by left].
  pose proof (cache_lookup_world r_client o cache_key w) as Hw.
  destruct (cache_lookup r_client o cache_key w) as [[[data|]|e] w'] eqn:Hl;
    cbn [snd] in Hw; subst w'.
  - left. by destruct (json_loads data).
  - rewrite analyze_miss_eq. cbv zeta.
    destruct r_client as [c|]; [|by left].
    destruct (setex_up o) eqn:Hs; [|by left].
    right. exists c, resume_text, (default [] (form_jd_text rq)), cache_key.
    split; [done|]. split; [|done]. split; [|done]. by exists file.
  - by left.
Qed.





(** X14.  A hit does not prolong an entry.  After a miss stored at the
    instant [t], a request served from the cache before [t + 3600] leaves
    the world as it was, and a request at [t + 3600] or later is a miss
    again and sends its prompts, however recent the last hit. *)
Theorem a_hit_does_not_extend_the_entry `{JsonModule} :
  forall c rq resume_text jd_text cache_key o1 o2 o3 w,
    keyed rq resume_text jd_text cache_key ->
    cache_lookup (Some c) o1 cache_key w = (Ret None, w) ->
    setex_up o1 = true ->
    json_dumps (response_of o1 resume_text jd_text) <> [] ->
    get_up o2 = true ->
    get_now o2 < setex_now o1 + 3600 ->
    get_up o3 = true ->
    setex_now o1 + 3600 <= get_now o3 ->
    exists w1,
      (analyze_resume (Some c) o1 rq w).2 = w1
      /\ (analyze_resume (Some c) o2 rq w1).2 = w1
      /\ prompts (analyze_resume (Some c) o3 rq w1).2
         = prompts w1 ++ prompts_sent resume_text jd_text.
Proof.
  intros c rq resume_text jd_text cache_key o1 o2 o3 w Hk Hm Hs1 Hne Hu2 Hlt Hu3 Hge.
  eexists. split; [by rewrite (analyze_resume_stored _ _ _ _ _ _ _ Hk Hm Hs1)|].
  cbn [snd]. split.
  - erewrite analyze_resume_hit; [reflexivity|done|done| |done|done].
    cbn [db]. apply lookup_insert_eq.
  - rewrite (analyze_resume_keyed _ _ _ _ _ _ _ Hk).
    assert (cache_lookup (Some c) o3 cache_key
              (World (<[cache_key := (json_dumps (response_of o1 resume_text jd_text),
                                      setex_now o1 + 3600)]> (db w))
                 (prompts w ++ prompts_sent resume_text jd_text))
            = (Ret None,
               World (<[cache_key := (json_dumps (response_of o1 resume_text jd_text),
                                      setex_now o1 + 3600)]> (db w))
                 (prompts w ++ prompts_sent resume_text jd_text))) as ->.
    { apply cache_lookup_miss_iff; [done|]. right. eexists _, _.
      split; [cbn [db]; apply lookup_insert_eq|by right]. }
    rewrite analyze_miss_eq. cbv zeta. by destruct (setex_up o3).
Qed.

Lemma a_hit_does_not_extend_the_entry_witness :
  exists w1,
    (analyze_resume (H := py_json) (Some Demo.client)
       (Demo.redis_up 0 (Demo.answers Demo.jane Demo.scored))
       (Request (Some Demo.upload) (Some Demo.jd)) Demo.w0).2 = w1
    /\ (analyze_resume (H := py_json) (Some Demo.client)
          (Demo.redis_up 3599 (Demo.answers Demo.jane Demo.scored))
          (Request (Some Demo.upload) (Some Demo.jd)) w1).2 = w1
    /\ prompts (analyze_resume (H := py_json) (Some Demo.client)
                  (Demo.redis_up 3600 (Demo.answers Demo.jane Demo.scored))
                  (Request (Some Demo.upload) (Some Demo.jd)) w1).2
       = prompts w1 ++ prompts_sent Demo.text Demo.jd.
Proof.
  apply (a_hit_does_not_extend_the_entry (H := py_json) Demo.client
           (Request (Some Demo.upload) (Some Demo.jd)) Demo.text Demo.jd
           (Demo.key Demo.jd)
           (Demo.redis_up 0 (Demo.answers Demo.jane Demo.scored))
           (Demo.redis_up 3599 (Demo.answers Demo.jane Demo.scored))
           (Demo.redis_up 3600 (Demo.answers Demo.jane Demo.scored))
           Demo.w0 demo_keyed_jd).
  - vm_compute. reflexivity.
  - reflexivity.
  - vm_compute. discriminate.
  - reflexivity.
  - vm_compute. reflexivity.
  - reflexivity.
  - vm_compute. discriminate.
Defined.

(** X15.  The response of a request whose extraction call failed is stored
    like any other: until the entry expires, the same request is answered with that
    fallback record from the cache, without asking the model again. *)
Theorem a_failed_completion_is_cached `{JsonModule} :
  forall c rq resume_text jd_text cache_key o1 o2 w,
    keyed rq resume_text jd_text cache_key ->
    cache_lookup (Some c) o1 cache_key w = (Ret None, w) ->
    setex_up o1 = true ->
    call_failed (model o1 (extract_prompt resume_text)) ->
    json_dumps (response_of o1 resume_text jd_text) <> [] ->
    json_loads (json_dumps (response_of o1 resume_text jd_text))
    = Ret (response_of o1 resume_text jd_text) ->
    get_up o2 = true ->
    get_now o2 < setex_now o1 + 3600 ->
    analyze_resume (Some c) o2 rq (analyze_resume (Some c) o1 rq w).2
    = (Ret (Respond 200
              (PyDict
                 [ (py "resume_text_preview", PyStr (slice_to 200 resume_text));
                   (py "extracted_info", PyDict [(py "raw_text", PyNone)]);
                   (py "match_result", match_result_of o1 resume_text jd_text) ])),
       (analyze_resume (Some c) o1 rq w).2).
Proof.
  intros c rq resume_text jd_text cache_key o1 o2 w Hk Hm Hs1 Hf Hne Hrt Hu2 Hlt.
  rewrite (analyze_resume_stored _ _ _ _ _ _ _ Hk Hm Hs1). cbn [snd].
  erewrite analyze_resume_hit; [|done|done| |done|done].
  - rewrite Hrt. cbn [res_bind]. unfold response_of, extracted_info_of.
    rewrite (completion_failed _ Hf).
    by rewrite (sanitize_extract_unparseable _ unparseable_None).
  - cbn [db]. apply lookup_insert_eq.
Qed.

Lemma a_failed_completion_is_cached_witness :
  analyze_resume (H := py_json) (Some Demo.client)
    (Demo.redis_up 10 (Demo.answers Demo.jane Demo.scored))
    (Request (Some Demo.upload) (Some Demo.jd))
    (analyze_resume (H := py_json) (Some Demo.client)
       (Demo.redis_up 0 (Demo.answers CallRaises Demo.scored))
       (Request (Some Demo.upload) (Some Demo.jd)) Demo.w0).2
  = (Ret (Respond 200
            (PyDict
               [ (py "resume_text_preview", PyStr (slice_to 200 Demo.text));
                 (py "extracted_info", PyDict [(py "raw_text", PyNone)]);
                 (py "match_result",
                  match_result_of (H := py_json)
                    (Demo.redis_up 0 (Demo.answers CallRaises Demo.scored))
                    Demo.text Demo.jd) ])),
     (analyze_resume (H := py_json) (Some Demo.client)
        (Demo.redis_up 0 (Demo.answers CallRaises Demo.scored))
        (Request (Some Demo.upload) (Some Demo.jd)) Demo.w0).2).
Proof.
  apply (a_failed_completion_is_cached (H := py_json) Demo.client
           (Request (Some Demo.upload) (Some Demo.jd)) Demo.text Demo.jd
           (Demo.key Demo.jd)
           (Demo.redis_up 0 (Demo.answers CallRaises Demo.scored))
           (Demo.redis_up 10 (Demo.answers Demo.jane Demo.scored))
           Demo.w0 demo_keyed_jd).
  - vm_compute. reflexivity.
  - reflexivity.
  - vm_compute. exact I.
  - vm_compute. discriminate.
  - vm_compute. reflexivity.
  - reflexivity.
  - vm_compute. reflexivity.
Defined.

(** X16.  A live cached value that is not empty and does not parse as
    JSON is not treated as a miss: the parser's exception leaves the
    handler, nothing is sent to the model and the entry stays. *)
Theorem corrupt_entry_is_not_a_miss `{JsonModule} :
  forall c o rq w resume_text jd_text cache_key data expires e,
    keyed rq resume_text jd_text cache_key ->
    get_up o = true ->
    db w !! cache_key = Some (data, expires) ->
    get_now o < expires ->
    data <> [] ->
    json_loads data = Raise e ->
    analyze_resume (Some c) o rq w = (Raise e, w).
Proof.
  intros c o rq w resume_text jd_text cache_key data expires e Hk Hu Hd Hlt Hne He.
  rewrite (analyze_resume_hit _ _ _ _ _ _ _ _ _ Hk Hu Hd Hlt Hne). by rewrite He.
Qed.


Lemma corrupt_entry_is_not_a_miss_witness :
  analyze_resume (H := py_json) (Some Demo.client)
    (Demo.redis_up 50 (Demo.answers Demo.jane Demo.scored))
    (Request (Some Demo.upload) (Some Demo.jd))
    (World {[Demo.key Demo.jd := (py "oops", 100)]} [])
  = (Raise JSONDecodeError, World {[Demo.key Demo.jd := (py "oops", 100)]} []).
Proof.
  apply (corrupt_entry_is_not_a_miss (H := py_json) Demo.client
           (Demo.redis_up 50 (Demo.answers Demo.jane Demo.scored))
           (Request (Some Demo.upload) (Some Demo.jd))
           (World {[Demo.key Demo.jd := (py "oops", 100)]} [])
           Demo.text Demo.jd (Demo.key Demo.jd) (py "oops") 100 JSONDecodeError
           demo_keyed_jd).
  - reflexivity.
  - cbn [db]. apply lookup_singleton_eq.
  - vm_compute. reflexivity.
  - vm_compute. discriminate.
  - vm_compute. reflexivity.
Defined.

(** X18.  Without a client every request with a readable document and a
    computable key is answered 200 with the response computed from the
    model's answers; it sends its prompts, whatever the Redis data hold,
    and leaves those data untouched. *)
Theorem without_a_client_every_request_is_computed `{JsonModule} :
  forall o rq w resume_text jd_text cache_key,
    keyed rq resume_text jd_text cache_key ->
    analyze_resume None o rq w
    = (Ret (Respond 200 (response_of o resume_text jd_text)),
       World (db w) (prompts w ++ prompts_sent resume_text jd_text)).
Proof.
  intros o rq w resume_text jd_text cache_key Hk.
  rewrite (analyze_resume_keyed _ _ _ _ _ _ _ Hk), cache_lookup_disabled.
  by rewrite analyze_miss_eq.
Qed.

Lemma without_a_client_every_request_is_computed_witness :
  analyze_resume (H := py_json) None
    (Demo.redis_down (Demo.answers Demo.jane Demo.scored))
    (Request (Some Demo.upload) (Some Demo.jd)) Demo.w0
  = (Ret (Respond 200
            (response_of (H := py_json)
               (Demo.redis_down (Demo.answers Demo.jane Demo.scored))
               Demo.text Demo.jd)),
     World (db Demo.w0) (prompts Demo.w0 ++ prompts_sent Demo.text Demo.jd)).
Proof.
  exact (without_a_client_every_request_is_computed (H := py_json)
           (Demo.redis_down (Demo.answers Demo.jane Demo.scored))
           (Request (Some Demo.upload) (Some Demo.jd)) Demo.w0
           Demo.text Demo.jd (Demo.key Demo.jd) demo_keyed_jd).
Defined.

(** X19.  A request is judged by the words of its document and by its job
    description only: two uploads whose pages hold the same words in the
    same order, however they are spaced and split into pages, sent with
    the same job description (a missing field counting as the empty string),
    get the same answer and leave the same world. *)
Theorem same_words_same_answer `{JsonModule} :
  forall (texts1 texts2 : list (option pystr)) (jd1 jd2 : option pystr),
    page_words texts1 = page_words texts2 ->
    default [] jd1 = default [] jd2 ->
    forall r_client o w,
      analyze_resume r_client o (Request (Some (Ret (Ret <$> texts1))) jd1) w
      = analyze_resume r_client o (Request (Some (Ret (Ret <$> texts2))) jd2) w.
Proof.
  intros texts1 texts2 jd1 jd2 Hw Hj r_client o w.
  assert (Hx : forall texts,
             extract_text_from_pdf (Ret (Ret <$> texts))
             = Ret (join_sp (page_words texts))).
  { intros texts. unfold extract_text_from_pdf. cbn [res_bind].
    destruct (read_pages_texts texts []) as (raw & -> & Hr). cbn [res_bind app].
    by rewrite normalize_collapse, <- Hr. }
  unfold analyze_resume. cbn [files_resume form_jd_text].
  by rewrite !Hx, Hw, Hj.
Qed.

Lemma same_words_same_answer_witness :
  analyze_resume (H := py_json) (Some Demo.client)
    (Demo.redis_up 0 (Demo.answers Demo.jane Demo.scored))
    (Request
       (Some (Ret (Ret <$> [Some (py "John  Doe"); None; Some (py " Go, Python ")])))
       None) Demo.w0
  = analyze_resume (H := py_json) (Some Demo.client)
      (Demo.redis_up 0 (Demo.answers Demo.jane Demo.scored))
      (Request (Some (Ret (Ret <$> [Some (py "John Doe Go,"); Some (py "Python")])))
         (Some [])) Demo.w0.
Proof.
  apply (same_words_same_answer (H := py_json)
           [Some (py "John  Doe"); None; Some (py " Go, Python ")]
           [Some (py "John Doe Go,"); Some (py "Python")] None (Some [])).
  - vm_compute. reflexivity.
  - reflexivity.
Defined.
